(** * AsyncExternalTaskClient: the lease-protocol client, embedded and verified

    Shallow embedding of [camunda/client/async_external_task_client.py].

    - Python values are the inductive [pyval]; dictionaries with string keys
      are finite maps ([gmap string _]), whose equality is Python's [==] on
      dicts (insertion order is not observable through [==] or lookups).
    - Exceptions are the inductive [exn]; a Python call that may raise returns
      [result A].
    - [async def]/[await] : each operation awaits exactly one transport call and
      nothing else runs in between, so an operation is a function of the
      transport's outcome.
    - Logging ([_log_with_context], [logger.info]) writes to a sink and has no
      influence on the values computed; the write is left out.  What a log
      line evaluates on the way is kept where it can raise: the
      [obfuscate_password] call in the last line of [__init__].
    - Numbers: Python's [int] is [Z].  The only non-integer numbers the client
      computes are timeouts in seconds, [n / 1000] for an integer [n].  They
      are Python floats, that is IEEE 754 binary64 numbers, kept as the
      [spec_float] of the standard library with precision 53 and maximal
      exponent 1024; the division rounds to the nearest double, ties to even,
      and raises [OverflowError] beyond the range of doubles. *)

From Stdlib Require Import ZArith QArith Lia.
From Stdlib Require Import DecimalString SpecFloat.
From stdpp Require Import base option gmap strings list fin_maps.

Set Warnings "-register-all".

Open Scope Z_scope.

(** ** Python values *)

Inductive pyval : Type :=
| PNone
| PBool (b : bool)
| PInt (z : Z)
| PStr (s : string)
| PList (l : list pyval)
| PDict (d : gmap string pyval).

Inductive pytype : Type := TNoneType | TBool | TInt | TStr | TList | TDict.

(** [type(v)] *)
Definition type_of (v : pyval) : pytype :=
  match v with
  | PNone => TNoneType
  | PBool _ => TBool
  | PInt _ => TInt
  | PStr _ => TStr
  | PList _ => TList
  | PDict _ => TDict
  end.

(** [isinstance(v, dict)] *)
Definition isinstance_dict (v : pyval) : bool :=
  match v with PDict _ => true | _ => false end.

(** Truth value of a dict: non-empty. *)
Definition dict_truthy {A} (d : gmap string A) : bool :=
  negb (Nat.eqb (size d) 0).

(** [bool(v)], as used by [if v], [not v], [v or w]. *)
Definition truthy (v : pyval) : bool :=
  match v with
  | PNone => false
  | PBool b => b
  | PInt z => negb (Z.eqb z 0)
  | PStr s => negb (String.eqb s "")
  | PList l => match l with [] => false | _ :: _ => true end
  | PDict d => dict_truthy d
  end.

(** [v or w] *)
Definition py_or (v w : pyval) : pyval := if truthy v then v else w.

(** [d.get(k)]: [None] when the key is absent. *)
Definition dict_get (d : gmap string pyval) (k : string) : pyval :=
  default PNone (d !! k).

(** [d.get(k, dflt)] *)
Definition dict_get_default (d : gmap string pyval) (k : string) (dflt : pyval) : pyval :=
  default dflt (d !! k).

(** [d.update(e)]: the entries of [e] win. *)
Definition dict_update {A} (d e : gmap string A) : gmap string A := e ∪ d.

(** ** Exceptions and results *)

Inductive exn : Type :=
| KeyError (k : string)
| TypeError
| OverflowError
| AttributeError
| JSONDecodeError
| TimeoutException                 (* httpx.TimeoutException: no response in time *)
| ConnectError                     (* httpx.ConnectError: no connection *)
| HTTPStatusError (status : Z)     (* httpx.HTTPStatusError, holds the response *)
| OrchestratorError (status : Z) (body : option pyval)
| CredentialError (msg : string).  (* raised by a credential strategy *)

Inductive result (A : Type) : Type :=
| OK (a : A)
| Raise (e : exn).
Arguments OK {A} a.
Arguments Raise {A} e.

#[global] Instance result_ret : MRet result := fun A a => OK a.
#[global] Instance result_bind : MBind result := fun A B f m =>
  match m with
  | OK a => f a
  | Raise e => Raise e
  end.

(** [d[k]]: raises [KeyError] when the key is absent. *)
Definition dict_getitem (d : gmap string pyval) (k : string) : result pyval :=
  match d !! k with
  | Some v => OK v
  | None => Raise (KeyError k)
  end.

(** The integer a value stands for in arithmetic ([bool] is a subclass of
    [int]); the other values of [pyval] are not numbers. *)
Definition as_number (v : pyval) : option Z :=
  match v with
  | PInt z => Some z
  | PBool b => Some (if b then 1 else 0)
  | _ => None
  end.

(** An [int] as an operand of the float division: the integer itself, with
    exponent 0 and a mantissa of any length. *)
Definition int_operand (n : Z) : spec_float :=
  match n with
  | Z0 => S754_zero false
  | Zpos p => S754_finite false p 0
  | Zneg p => S754_finite true p 0
  end.

(** [n / 1000] for an [int] [n]: the double nearest to the exact quotient
    (ties to even), and [OverflowError] when that is beyond the doubles. *)
Definition truediv_1000 (n : Z) : result spec_float :=
  match SFdiv 53 1024 (int_operand n) (int_operand 1000) with
  | S754_infinity _ => Raise OverflowError
  | f => OK f
  end.

(** The rational number a finite float stands for: [m * 2^e], with its sign. *)
Definition float_value (f : spec_float) : Q :=
  match f with
  | S754_finite s m e =>
      match e with
      | Zneg p => cond_Zopp s (Zpos m) # (2 ^ p)%positive
      | _ => inject_Z (cond_Zopp s (Zpos m) * 2 ^ e)
      end
  | _ => 0%Q
  end.

(** [v / 1000] *)
Definition div_1000 (v : pyval) : result spec_float :=
  match as_number v with
  | Some n => truediv_1000 n
  | None => Raise TypeError
  end.

(** [(a + b) / 1000].  On the values of [pyval], [a + b] is a number exactly
    when both are; [str + str] and [list + list] concatenate, and the division
    then raises [TypeError] like every other combination does. *)
Definition add_div_1000 (a b : pyval) : result spec_float :=
  match as_number a, as_number b with
  | Some x, Some y => truediv_1000 (x + y)
  | _, _ => Raise TypeError
  end.

(** ** The client object *)

Record AsyncExternalTaskClient : Type := {
  worker_id : pyval;
  external_task_base_url : string;
  config : gmap string pyval;
  is_debug : pyval;
  http_timeout_seconds : spec_float;
}.

Definition default_config : gmap string pyval :=
  <["maxConcurrentTasks" := PInt 10]>
  (<["lockDuration" := PInt 300000]>
  (<["asyncResponseTimeout" := PInt 30000]>
  (<["retries" := PInt 3]>
  (<["retryTimeout" := PInt 300000]>
  (<["httpTimeoutMillis" := PInt 30000]>
  (<["timeoutDeltaMillis" := PInt 5000]>
  (<["includeExtensionProperties" := PBool true]>
  (<["deserializeValues" := PBool true]>
  (<["usePriority" := PBool false]>
  (<["sorting" := PNone]> ∅)))))))))).

(** [__get_fetch_and_lock_http_timeout_seconds(self)] *)
Definition __get_fetch_and_lock_http_timeout_seconds
    (self : AsyncExternalTaskClient) : result spec_float :=
  d ← dict_getitem (config self) "timeoutDeltaMillis";
  t ← dict_getitem (config self) "asyncResponseTimeout";
  add_div_1000 d t.

(** ** Topic subscriptions *)

(** Modelled from the spec: [str_to_list] of camunda/utils/utils.py is not
    among the sources.  The spec: the topic names are "a non-empty ordered
    sequence of topic identifiers (accepts a single identifier as well —
    normalize to a one-element sequence)".  A single string becomes a
    one-element list; anything else is handed on as it is. *)
Definition str_to_list (values : pyval) : pyval :=
  match values with
  | PStr s => PList [PStr s]
  | _ => values
  end.

(** The dict appended for one topic in the loop of [_get_topics]. *)
Definition topic_entry (self : AsyncExternalTaskClient)
    (process_variables variables topic : pyval) : result pyval :=
  lock_duration ← dict_getitem (config self) "lockDuration";
  deserialize ← dict_getitem (config self) "deserializeValues";
  mret (PDict
    (<["topicName" := topic]>
    (<["lockDuration" := lock_duration]>
    (<["processVariables" :=
         if truthy process_variables then process_variables else PDict ∅]>
    (<["includeExtensionProperties" :=
         py_or (dict_get (config self) "includeExtensionProperties") (PBool false)]>
    (<["deserializeValues" := deserialize]>
    (<["variables" := variables]> ∅))))))).

(** ** Requests, responses and the collaborators *)

Record request : Type := {
  url : string;
  headers : gmap string string;
  json : pyval;
  timeout : spec_float;
}.

(** A response as far as the client looks at it: the status code and the
    decoded JSON body ([None] when the body is not JSON). *)
Record response : Type := {
  status_code : Z;
  json_body : option pyval;
}.

(** What one [client.post] can come to. *)
Inductive outcome : Type :=
| Responded (r : response)
| TimedOut
| Unreachable.

(** The code outside this module that the client calls. *)
Class Collaborators : Type := {
  (** the orchestrator behind the HTTP transport *)
  transport : request -> outcome;
  (** the [token] of [AuthBasic] built from the entries of [d] *)
  AuthBasic_token : gmap string pyval -> result string;
  (** the [access_token] of [AuthBearer] built with [access_token=d] *)
  AuthBearer_access_token : gmap string pyval -> result string;
  (** [Variables.format] on a value that is not [None] *)
  format_present : pyval -> pyval;
  (** [repr] of a list or a dict *)
  repr_container : pyval -> string;
  (** [obfuscate_password(config)] of camunda/utils/auth_basic.py, which is not
      among the sources: the copy of the configuration that is logged, or the
      exception it raises *)
  obfuscate_password : gmap string pyval -> result (gmap string pyval);
  (** the keys of a dict in the order they were inserted, which a finite map
      does not record *)
  insertion_order : gmap string pyval -> list string;
  insertion_order_keys : forall d, insertion_order d ≡ₚ (map_to_list d).*1;
}.

(** [field] of a JSON object, for reading request bodies. *)
Definition body_field (body : pyval) (k : string) : option pyval :=
  match body with
  | PDict d => d !! k
  | _ => None
  end.

(** ** Error kinds *)

(** The three kinds of the spec's taxonomy, and the rest (a programming error
    such as a missing key). *)
Inductive error_kind : Type :=
| KTransport | KOrchestrator | KConfiguration | KOther.

Definition kind_of (e : exn) : error_kind :=
  match e with
  | TimeoutException | ConnectError => KTransport
  | HTTPStatusError _ | OrchestratorError _ _ => KOrchestrator
  | CredentialError _ => KConfiguration
  | KeyError _ | TypeError | OverflowError | AttributeError | JSONDecodeError => KOther
  end.

(** The status code an exception carries. *)
Definition status_of (e : exn) : option Z :=
  match e with
  | HTTPStatusError s | OrchestratorError s _ => Some s
  | _ => None
  end.

(** [200 <= s <= 299] *)
Definition is_success (s : Z) : bool := (200 <=? s) && (s <=? 299).

(** Modelled from the spec: [raise_exception_if_not_ok] of
    camunda/utils/response_utils.py is not among the sources.  The spec: "any
    non-2xx HTTP status surfaces as an orchestrator-rejected error carrying
    status code and body"; a 2xx response passes. *)
Definition raise_exception_if_not_ok (r : response) : result unit :=
  if is_success (status_code r) then OK tt
  else Raise (OrchestratorError (status_code r) (json_body r)).

(** [response.raise_for_status()] of httpx: a success (2xx) passes, every
    other status raises [HTTPStatusError], which holds the response. *)
Definition raise_for_status (r : response) : result unit :=
  if is_success (status_code r) then OK tt
  else Raise (HTTPStatusError (status_code r)).

(** [response.json()] *)
Definition response_json (r : response) : result pyval :=
  match json_body r with
  | Some v => OK v
  | None => Raise JSONDecodeError
  end.

(** [HTTPStatus.NO_CONTENT] *)
Definition NO_CONTENT : Z := 204.

Section Client.
Context `{Collaborators}.

(** [__init__(self, worker_id, engine_base_url, config=None)].  Its last
    line logs [obfuscate_password(self.config)]; the call is evaluated inside
    the constructor, so what it raises the constructor raises. *)
Definition init (w : pyval) (engine_base_url : string)
    (cfg : option (gmap string pyval)) : result AsyncExternalTaskClient :=
  let cfg := default ∅ cfg in
  let merged := dict_update default_config cfg in
  t ← div_1000 (dict_get merged "httpTimeoutMillis");
  _ ← obfuscate_password merged;
  mret {| worker_id := w;
          external_task_base_url := engine_base_url +:+ "/external-task";
          config := merged;
          is_debug := dict_get_default cfg "isDebug" (PBool false);
          http_timeout_seconds := t |}.

(** The elements a [for] loop draws from a value.  A list gives its elements
    in order, a string its characters, a dict its keys in insertion order; the
    other values are not iterable. *)
Definition py_iter (v : pyval) : result (list pyval) :=
  match v with
  | PList l => OK l
  | PStr s => OK ((fun c => PStr (String c EmptyString)) <$> String.list_ascii_of_string s)
  | PDict d => OK (PStr <$> insertion_order d)
  | _ => Raise TypeError
  end.

(** [_get_topics(self, topic_names, process_variables, variables)] *)
Definition _get_topics (self : AsyncExternalTaskClient)
    (topic_names process_variables variables : pyval) : result (list pyval) :=
  names ← py_iter (str_to_list topic_names);
  mapM (topic_entry self process_variables variables) names.


(** [str(v)], also what an f-string puts for [{v}]. *)
Definition py_str (v : pyval) : string :=
  match v with
  | PNone => "None"
  | PBool true => "True"
  | PBool false => "False"
  | PInt z => NilZero.string_of_int (Z.to_int z)
  | PStr s => s
  | PList _ | PDict _ => repr_container v
  end.

(** Modelled from the spec: [Variables.format] of
    camunda/variables/variables.py is not among the sources.  The spec: "a
    variable-formatting function format(rawVariables) → wireVariables
    accepting None/absent and returning a serializable empty/omitted value",
    which "must accept None/absent maps and produce a valid empty
    representation, never fail on absence".  Absence gives the empty JSON
    object; what a present value is turned into is the collaborator's. *)
Definition Variables_format (variables : pyval) : pyval :=
  match variables with
  | PNone => PDict ∅
  | _ => format_present variables
  end.

(** [await client.post(url, headers=..., json=..., timeout=...)]: the
    transport's exceptions are not caught by the client. *)
Definition client_post (req : request) : result response :=
  match transport req with
  | Responded r => OK r
  | TimedOut => Raise TimeoutException
  | Unreachable => Raise ConnectError
  end.

(** *** Authentication *)

(** The property [auth_basic]. *)
Definition auth_basic (self : AsyncExternalTaskClient) : result (gmap string string) :=
  let entry := dict_get (config self) "auth_basic" in
  if negb (truthy entry) || negb (isinstance_dict entry) then OK ∅
  else
    match entry with
    | PDict d => token ← AuthBasic_token d; mret {["Authorization" := token]}
    | _ => OK ∅
    end.

(** The property [auth_bearer]. *)
Definition auth_bearer (self : AsyncExternalTaskClient) : result (gmap string string) :=
  let entry := dict_get (config self) "auth_bearer" in
  if negb (truthy entry) || negb (isinstance_dict entry) then OK ∅
  else
    match entry with
    | PDict d => token ← AuthBearer_access_token d; mret {["Authorization" := token]}
    | _ => OK ∅
    end.

(** [_get_headers(self)].  Each property is read once for the test and once
    more for the update. *)
Definition _get_headers (self : AsyncExternalTaskClient) : result (gmap string string) :=
  let headers : gmap string string := {["Content-Type" := "application/json"]} in
  basic ← auth_basic self;
  headers ← (if dict_truthy basic
             then basic' ← auth_basic self; mret (dict_update headers basic')
             else mret headers);
  bearer ← auth_bearer self;
  if dict_truthy bearer
  then bearer' ← auth_bearer self; mret (dict_update headers bearer')
  else mret headers.

(** *** URLs *)

Definition get_fetch_and_lock_url (self : AsyncExternalTaskClient) : string :=
  external_task_base_url self +:+ "/fetchAndLock".

Definition get_task_complete_url (self : AsyncExternalTaskClient) (task_id : pyval) : string :=
  external_task_base_url self +:+ "/" +:+ py_str task_id +:+ "/complete".

Definition get_task_failure_url (self : AsyncExternalTaskClient) (task_id : pyval) : string :=
  external_task_base_url self +:+ "/" +:+ py_str task_id +:+ "/failure".

Definition get_task_bpmn_error_url (self : AsyncExternalTaskClient) (task_id : pyval) : string :=
  external_task_base_url self +:+ "/" +:+ py_str task_id +:+ "/bpmnError".

(** *** fetch_and_lock *)

(** The [body] dict of [fetch_and_lock]. *)
Definition fetch_and_lock_body (self : AsyncExternalTaskClient)
    (topic_names process_variables variables : pyval) : result pyval :=
  topics ← _get_topics self topic_names process_variables variables;
  async_response_timeout ← dict_getitem (config self) "asyncResponseTimeout";
  use_priority ← dict_getitem (config self) "usePriority";
  sorting ← dict_getitem (config self) "sorting";
  mret (PDict
    (<["workerId" := PStr (py_str (worker_id self))]>
    (<["maxTasks" := PInt 1]>
    (<["topics" := PList topics]>
    (<["asyncResponseTimeout" := async_response_timeout]>
    (<["usePriority" := use_priority]>
    (<["sorting" := sorting]> ∅))))))).

(** What [fetch_and_lock] hands to [client.post]. *)
Definition fetch_and_lock_request (self : AsyncExternalTaskClient)
    (topic_names process_variables variables : pyval) : result request :=
  let url := get_fetch_and_lock_url self in
  body ← fetch_and_lock_body self topic_names process_variables variables;
  http_timeout_seconds ← __get_fetch_and_lock_http_timeout_seconds self;
  headers ← _get_headers self;
  mret {| url := url; headers := headers; json := body;
          timeout := http_timeout_seconds |}.

(** [fetch_and_lock(self, topic_names, process_variables=None, variables=None)] *)
Definition fetch_and_lock (self : AsyncExternalTaskClient)
    (topic_names process_variables variables : pyval) : result pyval :=
  req ← fetch_and_lock_request self topic_names process_variables variables;
  response ← client_post req;
  _ ← raise_exception_if_not_ok response;
  response_json response.

(** *** complete *)

Definition complete_body (self : AsyncExternalTaskClient)
    (global_variables local_variables : pyval) : pyval :=
  PDict
    (<["workerId" := worker_id self]>
    (<["variables" := Variables_format global_variables]>
    (<["localVariables" := Variables_format local_variables]> ∅))).

Definition complete_request (self : AsyncExternalTaskClient)
    (task_id global_variables local_variables : pyval) : result request :=
  let url := get_task_complete_url self task_id in
  let body := complete_body self global_variables local_variables in
  headers ← _get_headers self;
  mret {| url := url; headers := headers; json := body;
          timeout := http_timeout_seconds self |}.

(** [complete(self, task_id, global_variables, local_variables=None)] *)
Definition complete (self : AsyncExternalTaskClient)
    (task_id global_variables local_variables : pyval) : result bool :=
  req ← complete_request self task_id global_variables local_variables;
  response ← client_post req;
  _ ← raise_exception_if_not_ok response;
  mret (status_code response =? NO_CONTENT).

(** *** failure *)

Definition failure_body (self : AsyncExternalTaskClient)
    (error_message error_details retries retry_timeout : pyval) : pyval :=
  let body : gmap string pyval :=
    <["workerId" := worker_id self]>
    (<["errorMessage" := error_message]>
    (<["retries" := retries]>
    (<["retryTimeout" := retry_timeout]> ∅))) in
  PDict (if truthy error_details
         then <["errorDetails" := error_details]> body
         else body).

Definition failure_request (self : AsyncExternalTaskClient)
    (task_id error_message error_details retries retry_timeout : pyval) : result request :=
  let url := get_task_failure_url self task_id in
  let body := failure_body self error_message error_details retries retry_timeout in
  headers ← _get_headers self;
  mret {| url := url; headers := headers; json := body;
          timeout := http_timeout_seconds self |}.

(** [failure(self, task_id, error_message, error_details, retries, retry_timeout)] *)
Definition failure (self : AsyncExternalTaskClient)
    (task_id error_message error_details retries retry_timeout : pyval) : result bool :=
  req ← failure_request self task_id error_message error_details retries retry_timeout;
  response ← client_post req;
  _ ← raise_exception_if_not_ok response;
  mret (status_code response =? NO_CONTENT).

(** *** bpmn_failure *)

Definition bpmn_failure_body (self : AsyncExternalTaskClient)
    (error_code error_message variables : pyval) : pyval :=
  PDict
    (<["workerId" := worker_id self]>
    (<["errorCode" := error_code]>
    (<["errorMessage" := error_message]>
    (<["variables" := Variables_format variables]> ∅)))).

Definition bpmn_failure_request (self : AsyncExternalTaskClient)
    (task_id error_code error_message variables : pyval) : result request :=
  let url := get_task_bpmn_error_url self task_id in
  let body := bpmn_failure_body self error_code error_message variables in
  headers ← _get_headers self;
  mret {| url := url; headers := headers; json := body;
          timeout := http_timeout_seconds self |}.

(** [bpmn_failure(self, task_id, error_code, error_message, variables=None)] *)
Definition bpmn_failure (self : AsyncExternalTaskClient)
    (task_id error_code error_message variables : pyval) : result bool :=
  req ← bpmn_failure_request self task_id error_code error_message variables;
  response ← client_post req;
  _ ← raise_for_status response;
  mret (status_code response =? NO_CONTENT).

End Client.

(** ** How an operation's result answers the transport's outcome *)

(** The error contract of one operation: when the transport gave outcome [o]
    for its request, a timeout or a lost connection surfaces as a
    transport-kind exception, and a response that is not 2xx as an
    orchestrator-kind exception carrying the response's status. *)
Definition surfaces {A} (o : outcome) (res : result A) : Prop :=
  match o with
  | Responded r =>
      is_success (status_code r) = false ->
      exists e, res = Raise e /\ kind_of e = KOrchestrator
                /\ status_of e = Some (status_code r)
  | TimedOut | Unreachable =>
      exists e, res = Raise e /\ kind_of e = KTransport
  end.

(** The entries every subscription of one call shares: all but [topicName]. *)
Definition shared_fields (self : AsyncExternalTaskClient)
    (process_variables variables lock_duration deserialize : pyval) : gmap string pyval :=
  <["lockDuration" := lock_duration]>
  (<["processVariables" :=
       if truthy process_variables then process_variables else PDict ∅]>
  (<["includeExtensionProperties" :=
       py_or (dict_get (config self) "includeExtensionProperties") (PBool false)]>
  (<["deserializeValues" := deserialize]>
  (<["variables" := variables]> ∅)))).

(** ** Concrete collaborators, for running the model *)

(** An orchestrator that answers every request with the given status. *)
Definition answering (status : Z) (body : option pyval) : request -> outcome :=
  fun _ => Responded {| status_code := status; json_body := body |}.

(** Strategies that read the one field they need and prefix the scheme. *)
Definition demo_basic (d : gmap string pyval) : result string :=
  match d !! "username", d !! "password" with
  | Some (PStr u), Some (PStr p) => OK ("Basic " +:+ u +:+ ":" +:+ p)
  | _, _ => Raise (CredentialError "auth_basic")
  end.

Definition demo_bearer (d : gmap string pyval) : result string :=
  match d !! "access_token" with
  | Some (PStr t) => OK ("Bearer " +:+ t)
  | _ => Raise (CredentialError "auth_bearer")
  end.

(** A stand-in for [obfuscate_password]: it masks the password of a dict
    [auth_basic] entry, passes a configuration without one, and fails on an
    entry that has no keys to look through. *)
Definition demo_obfuscate (cfg : gmap string pyval) : result (gmap string pyval) :=
  match cfg !! "auth_basic" with
  | None | Some PNone => OK cfg
  | Some (PDict d) =>
      OK (<["auth_basic" := PDict (if bool_decide (is_Some (d !! "password"))
                                   then <["password" := PStr "***"]> d else d)]> cfg)
  | Some _ => Raise AttributeError
  end.

Definition demo (t : request -> outcome) : Collaborators :=
  {| transport := t;
     AuthBasic_token := demo_basic;
     AuthBearer_access_token := demo_bearer;
     format_present := fun v => v;
     repr_container := fun _ => "<container>";
     obfuscate_password := demo_obfuscate;
     insertion_order := fun d => (map_to_list d).*1;
     insertion_order_keys := fun d => reflexivity _ |}.

Definition demo_client (cfg : gmap string pyval) : AsyncExternalTaskClient :=
  {| worker_id := PInt 7;
     external_task_base_url := "http://engine/external-task";
     config := dict_update default_config cfg;
     is_debug := PBool false;
     http_timeout_seconds := S754_finite false 8444249301319680 (-48) |}.

(** A configuration with both credential strategies. *)
Definition both_auth_config : gmap string pyval :=
  <["auth_basic" := PDict (<["username" := PStr "demo"]>
                          (<["password" := PStr "secret"]> ∅))]>
  (<["auth_bearer" := PDict (<["access_token" := PStr "tok"]> ∅)]> ∅).

(** A configuration whose credential entries are not dicts. *)
Definition malformed_auth_config : gmap string pyval :=
  <["auth_basic" := PStr "demo:secret"]> (<["auth_bearer" := PInt 42]> ∅).

Example ex_init_default :
  (self ← @init (demo (answering 200 None)) (PStr "w") "http://h" None;
   __get_fetch_and_lock_http_timeout_seconds self)
  = OK (S754_finite false 4925812092436480 (-47)).
Proof. vm_compute. reflexivity. Qed.

Example ex_init_demo :
  @init (demo (answering 200 None)) (PInt 7) "http://engine" (Some ∅) = OK (demo_client ∅).
Proof. vm_compute. reflexivity. Qed.

Example ex_complete_204 :
  @complete (demo (answering 204 None)) (demo_client ∅) (PStr "t1") PNone PNone = OK true.
Proof. vm_compute. reflexivity. Qed.

Example ex_complete_200 :
  @complete (demo (answering 200 None)) (demo_client ∅) (PStr "t1") PNone PNone = OK false.
Proof. vm_compute. reflexivity. Qed.

Example ex_complete_500 :
  @complete (demo (answering 500 None)) (demo_client ∅) (PStr "t1") PNone PNone
  = Raise (OrchestratorError 500 None).
Proof. vm_compute. reflexivity. Qed.

Example ex_topics :
  (subs ← @_get_topics (demo (answering 200 None)) (demo_client ∅)
            (PList [PStr "a"; PStr "b"]) PNone PNone;
   mret (length subs)) = OK 2%nat.
Proof. vm_compute. reflexivity. Qed.

(** * Properties *)

(** ** The result monad *)

Lemma bind_OK {A B} (m : result A) (f : A -> result B) (a : A) :
  m = OK a -> (m ≫= f) = f a.
Proof. intros ->. reflexivity. Qed.

Lemma bind_Raise {A B} (m : result A) (f : A -> result B) (e : exn) :
  m = Raise e -> (m ≫= f) = Raise e.
Proof. intros ->. reflexivity. Qed.

Lemma bind_OK_inv {A B} (m : result A) (f : A -> result B) (b : B) :
  (m ≫= f) = OK b -> exists a, m = OK a /\ f a = OK b.
Proof. destruct m as [a|e]; [eauto | discriminate]. Qed.

(** A loop body that never raises gives a loop that never raises. *)
Lemma mapM_OK {A B} (f : A -> result B) (g : A -> B) (l : list A) :
  (forall x, f x = OK (g x)) -> mapM f l = OK (g <$> l).
Proof.
  intros Hf. induction l as [|x l IH]; [reflexivity|].
  cbn. rewrite Hf. cbn. rewrite IH. reflexivity.
Qed.

Section Basics.
Context `{Collaborators}.

(** ** Construction *)

Lemma init_config w u cfg self :
  init w u cfg = OK self ->
  config self = dict_update default_config (default ∅ cfg)
  /\ worker_id self = w.
Proof.
  unfold init. intros Hinit.
  apply bind_OK_inv in Hinit as (t & _ & Hinit).
  apply bind_OK_inv in Hinit as (logged & _ & Hself).
  injection Hself as <-. split; reflexivity.
Qed.

(** A constructed client has every key of [default_config]. *)
Lemma init_has_defaults w u cfg self k v :
  init w u cfg = OK self -> default_config !! k = Some v ->
  exists v', config self !! k = Some v'.
Proof.
  intros Hinit Hk. apply init_config in Hinit as [-> _].
  unfold dict_update.
  destruct (default ∅ cfg !! k) as [v'|] eqn:Hc.
  - exists v'. apply lookup_union_Some_l. exact Hc.
  - exists v. rewrite lookup_union_r by exact Hc. exact Hk.
Qed.

Lemma dict_getitem_OK d k v : d !! k = Some v -> dict_getitem d k = OK v.
Proof. unfold dict_getitem. intros ->. reflexivity. Qed.

(** ** Subscriptions *)

Lemma topic_entry_OK self pv vars ld dv topic :
  config self !! "lockDuration" = Some ld ->
  config self !! "deserializeValues" = Some dv ->
  topic_entry self pv vars topic
  = OK (PDict (<["topicName" := topic]> (shared_fields self pv vars ld dv))).
Proof.
  intros Hld Hdv. unfold topic_entry.
  rewrite (dict_getitem_OK _ _ _ Hld). cbn.
  rewrite (dict_getitem_OK _ _ _ Hdv). reflexivity.
Qed.

Lemma get_topics_list self names pv vars ld dv :
  config self !! "lockDuration" = Some ld ->
  config self !! "deserializeValues" = Some dv ->
  _get_topics self (PList names) pv vars
  = OK ((fun n => PDict (<["topicName" := n]> (shared_fields self pv vars ld dv)))
          <$> names).
Proof.
  intros Hld Hdv. unfold _get_topics. cbn.
  apply mapM_OK. intros topic. apply topic_entry_OK; assumption.
Qed.

Lemma shared_fields_no_topicName self pv vars ld dv :
  shared_fields self pv vars ld dv !! "topicName" = None.
Proof. unfold shared_fields. by simplify_map_eq. Qed.

End Basics.

(** ** Python's true division by 1000 *)

Lemma digits2_pos_size p : digits2_pos p = Pos.size p.
Proof. induction p; cbn; congruence. Qed.

Lemma Zdigits2_log2 n : 0 < n -> Zdigits2 n = Z.log2 n + 1.
Proof.
  destruct n as [|p|p]; try lia. intros _. cbn. rewrite digits2_pos_size.
  destruct p; cbn; lia.
Qed.

(** Shifting once a record with an even mantissa and no pending bits. *)
Lemma shr_1_even m :
  0 < m -> shr_1 {| shr_m := 2 * m; shr_r := false; shr_s := false |}
  = {| shr_m := m; shr_r := false; shr_s := false |}.
Proof. destruct m; try lia. reflexivity. Qed.

Lemma div_eucl_exact a b : 0 < b -> Z.div_eucl (b * a) b = (a, 0).
Proof.
  intros Hb. rewrite (surjective_pairing (Z.div_eucl (b * a) b)).
  change (fst (Z.div_eucl (b * a) b)) with ((b * a) / b).
  change (snd (Z.div_eucl (b * a) b)) with ((b * a) mod b).
  rewrite (Z.mul_comm b a), Z.div_mul, Z.mod_mul by lia. reflexivity.
Qed.

Lemma fexp_normal x : -1021 <= x -> fexp 53 1024 x = x - 53.
Proof. intros Hx. unfold fexp, emin. change Z.max with Z.max. lia. Qed.

(** Rounding a mantissa that is exact and already in canonical position. *)
Lemma binary_round_aux_canonical m e :
  0 < m -> fexp 53 1024 (Zdigits2 m + e) = e -> e <= 971 ->
  binary_round_aux 53 1024 false m e loc_Exact = S754_finite false (Z.to_pos m) e.
Proof.
  intros Hm Hf He. unfold binary_round_aux, shr_fexp.
  replace (Z.add (Zdigits2 m) e) with (Zdigits2 m + e) by reflexivity.
  rewrite Hf. replace (Z.sub e e) with 0 by (symmetry; apply Z.sub_diag).
  cbn [shr shr_record_of_loc shr_m loc_of_shr_record round_nearest_even].
  replace (Z.add (Zdigits2 m) e) with (Zdigits2 m + e) by reflexivity.
  rewrite Hf. replace (Z.sub e e) with 0 by (symmetry; apply Z.sub_diag).
  cbn [shr shr_m]. destruct m as [|p|p]; try lia.
  replace (Z.leb e (Z.sub 1024 53)) with true; [reflexivity|].
  symmetry. apply Z.leb_le. exact He.
Qed.

(** Rounding an even exact mantissa that is one position too low. *)
Lemma binary_round_aux_one_shift m e :
  0 < m -> fexp 53 1024 (Zdigits2 (2 * m) + e) = e + 1 -> e + 1 <= 971 ->
  fexp 53 1024 (Zdigits2 m + (e + 1)) = e + 1 ->
  binary_round_aux 53 1024 false (2 * m) e loc_Exact
  = S754_finite false (Z.to_pos m) (e + 1).
Proof.
  intros Hm Hf He Hf'. unfold binary_round_aux, shr_fexp.
  replace (Z.add (Zdigits2 (2 * m)) e) with (Zdigits2 (2 * m) + e) by reflexivity.
  rewrite Hf. replace (Z.sub (e + 1) e) with 1 by (change Z.sub with Z.sub; lia).
  cbn [shr shr_record_of_loc SpecFloat.iter_pos]. rewrite (shr_1_even m Hm).
  cbn [shr_m loc_of_shr_record round_nearest_even].
  replace (Z.add e 1) with (e + 1) by reflexivity.
  replace (Z.add (Zdigits2 m) (e + 1)) with (Zdigits2 m + (e + 1)) by reflexivity.
  rewrite Hf'. replace (Z.sub (e + 1) (e + 1)) with 0 by (symmetry; apply Z.sub_diag).
  cbn [shr shr_m]. destruct m as [|p|p]; try lia.
  replace (Z.leb (e + 1) (Z.sub 1024 53)) with true; [reflexivity|].
  symmetry. apply Z.leb_le. exact He.
Qed.

Lemma float_value_scaled m j :
  0 < m -> 0 <= j ->
  (float_value (S754_finite false (Z.to_pos (m * 2 ^ j)) (- j)) == inject_Z m)%Q.
Proof.
  intros Hm Hj. assert (Hp : 0 < 2 ^ j) by (apply Z.pow_pos_nonneg; lia).
  unfold float_value. cbn [cond_Zopp]. rewrite Z2Pos.id by nia.
  destruct j as [|p|p]; try lia.
  - change (- 0) with 0. unfold Qeq. cbn [Qnum Qden inject_Z].
    rewrite !Z.pow_0_r. lia.
  - change (- Z.pos p) with (Z.neg p). unfold Qeq. cbn [Qnum Qden inject_Z].
    rewrite Pos2Z.inj_pow. lia.
Qed.

Lemma truediv_1000_exact k :
  0 < k < 2 ^ 53 ->
  exists f, truediv_1000 (1000 * k) = OK f /\ (float_value f == inject_Z k)%Q.
Proof.
  intros Hk.
  set (dk := Z.log2 k + 1).
  assert (Hdk : 1 <= dk <= 53).
  { unfold dk. pose proof (Z.log2_nonneg k).
    assert (Z.log2 k < 53) by (apply Z.log2_lt_pow2; lia). lia. }
  assert (Hd1 : Z.log2 (1000 * k) = Z.log2 k + 9 \/ Z.log2 (1000 * k) = Z.log2 k + 10).
  { pose proof (Z.log2_mul_below 1000 k ltac:(lia) ltac:(lia)) as Hb.
    pose proof (Z.log2_mul_above 1000 k ltac:(lia) ltac:(lia)) as Ha.
    change (Z.log2 1000) with 9 in *. lia. }
  set (s := 62 - Z.log2 (1000 * k)).
  assert (Hs : 0 <= s) by (unfold s; lia).
  assert (Hcore : SFdiv_core_binary 53 1024 (1000 * k) 0 1000 0
                  = (k * 2 ^ s, - s, loc_Exact)).
  { unfold SFdiv_core_binary.
    rewrite (Zdigits2_log2 (1000 * k)) by lia.
    change (Zdigits2 1000) with 10.
    replace (Z.sub (Z.add (Z.log2 (1000 * k) + 1) 0) (Z.add 10 0))
      with (Z.log2 (1000 * k) - 9) by (change Z.sub with Z.sub; change Z.add with Z.add; lia).
    rewrite fexp_normal by lia.
    replace (Z.min (Z.log2 (1000 * k) - 9 - 53) (Z.sub 0 0)) with (- s)
      by (unfold s; change (Z.sub 0 0) with 0; lia).
    replace (Z.sub (Z.sub 0 0) (- s)) with s by (change (Z.sub 0 0) with 0; lia).
    assert (Hm : match s with
                 | Z0 => 1000 * k
                 | Zpos _ => Z.shiftl (1000 * k) s
                 | Zneg _ => 0
                 end = 1000 * (k * 2 ^ s)).
    { destruct s as [|ps|ps] eqn:Es; try lia.
      - rewrite Z.shiftl_mul_pow2 by lia. lia. }
    rewrite Hm. rewrite div_eucl_exact by lia. reflexivity. }
  unfold truediv_1000.
  assert (Hop : int_operand (1000 * k) = S754_finite false (Z.to_pos (1000 * k)) 0).
  { destruct (1000 * k) as [|p|p] eqn:Hp; try lia. reflexivity. }
  rewrite Hop. cbn [int_operand SFdiv xorb].
  rewrite Z2Pos.id by lia. rewrite Hcore.
  assert (Hdig : forall j, 0 <= j -> Zdigits2 (k * 2 ^ j) = dk + j).
  { intros j Hj. rewrite Zdigits2_log2 by (apply Z.mul_pos_pos; [lia | apply Z.pow_pos_nonneg; lia]).
    rewrite Z.log2_mul_pow2 by lia. unfold dk. lia. }
  destruct Hd1 as [Hd1 | Hd1].
  - (* one shift *)
    assert (Es : s = 54 - dk) by (unfold s, dk; lia).
    replace (k * 2 ^ s) with (2 * (k * 2 ^ (s - 1))).
    2:{ replace s with (1 + (s - 1)) at 2 by lia. rewrite Z.pow_add_r by lia. lia. }
    assert (Hpos : 0 < k * 2 ^ (s - 1)) by (apply Z.mul_pos_pos; [lia | apply Z.pow_pos_nonneg; lia]).
    rewrite binary_round_aux_one_shift.
    + eexists. split; [reflexivity|].
      replace (- s + 1) with (- (s - 1)) by lia.
      apply float_value_scaled; lia.
    + exact Hpos.
    + replace (2 * (k * 2 ^ (s - 1))) with (k * 2 ^ s).
      2:{ replace s with (1 + (s - 1)) at 1 by lia. rewrite Z.pow_add_r by lia. lia. }
      rewrite Hdig by lia. rewrite fexp_normal by lia. lia.
    + lia.
    + rewrite Hdig by lia. rewrite fexp_normal by lia. lia.
  - (* no shift *)
    assert (Es : s = 53 - dk) by (unfold s, dk; lia).
    assert (Hpos : 0 < k * 2 ^ s) by (apply Z.mul_pos_pos; [lia | apply Z.pow_pos_nonneg; lia]).
    rewrite binary_round_aux_canonical.
    + eexists. split; [reflexivity|]. apply float_value_scaled; lia.
    + exact Hpos.
    + rewrite Hdig by lia. rewrite fexp_normal by lia. lia.
    + lia.
Qed.

(** ** A lower bound on the rounded quotient *)

Lemma shr_1_m m r st : 0 <= m -> shr_m (shr_1 {| shr_m := m; shr_r := r; shr_s := st |}) = m / 2.
Proof.
  intros Hm. destruct m as [|p|p]; try lia; [reflexivity|].
  destruct p as [p|p|]; cbn [shr_1 shr_m].
  - rewrite Pos2Z.inj_xI. apply (Z.div_unique_pos _ 2 _ 1); lia.
  - rewrite Pos2Z.inj_xO. apply (Z.div_unique_pos _ 2 _ 0); lia.
  - reflexivity.
Qed.

Lemma round_nearest_even_bounds m l :
  m <= round_nearest_even m l <= m + 1.
Proof.
  destruct l as [|[| |]]; cbn [round_nearest_even]; try lia.
  destruct (Z.even m); change (Z.add m 1) with (m + 1); lia.
Qed.

Lemma fexp_53 m e :
  2 ^ 52 <= m < 2 ^ 53 -> -1074 <= e -> fexp 53 1024 (Zdigits2 m + e) - e = 0.
Proof.
  intros Hm He. rewrite Zdigits2_log2 by lia.
  assert (Z.log2 m = 52).
  { apply Z.log2_unique; lia. }
  rewrite fexp_normal by lia. lia.
Qed.

Lemma fexp_54 m e :
  2 ^ 53 <= m < 2 ^ 54 -> -1075 <= e -> fexp 53 1024 (Zdigits2 m + e) - e = 1.
Proof.
  intros Hm He. rewrite Zdigits2_log2 by lia.
  assert (Z.log2 m = 53).
  { apply Z.log2_unique; lia. }
  rewrite fexp_normal by lia. lia.
Qed.

Lemma shr_fexp_53 m e l :
  2 ^ 52 <= m < 2 ^ 53 -> -1074 <= e ->
  shr_fexp 53 1024 m e l = (shr_record_of_loc m l, e).
Proof.
  intros Hm He. unfold shr_fexp.
  change (Z.sub (fexp 53 1024 (Z.add (Zdigits2 m) e)) e)
    with (fexp 53 1024 (Zdigits2 m + e) - e).
  rewrite fexp_53 by assumption. reflexivity.
Qed.

Lemma shr_fexp_54 m e l :
  2 ^ 53 <= m < 2 ^ 54 -> -1075 <= e ->
  shr_fexp 53 1024 m e l = (shr_1 (shr_record_of_loc m l), e + 1).
Proof.
  intros Hm He. unfold shr_fexp.
  change (Z.sub (fexp 53 1024 (Z.add (Zdigits2 m) e)) e)
    with (fexp 53 1024 (Zdigits2 m + e) - e).
  rewrite fexp_54 by assumption. reflexivity.
Qed.

Lemma shr_record_of_loc_m m l : shr_m (shr_record_of_loc m l) = m.
Proof. destruct l as [|[| |]]; reflexivity. Qed.

(** The second stage of rounding: a mantissa of 53 bits stays, [2^53] is
    halved. *)
Lemma round_second_stage m e :
  2 ^ 52 <= m <= 2 ^ 53 -> -1074 <= e -> e + 1 <= 971 ->
  exists m' j,
    (let '(mrs, e'') := shr_fexp 53 1024 m e loc_Exact in
     match shr_m mrs with
     | Z0 => S754_zero false
     | Zpos p => if Z.leb e'' (Z.sub 1024 53) then S754_finite false p e''
                 else S754_infinity false
     | Zneg _ => S754_nan
     end) = S754_finite false m' (e + j)
    /\ 0 <= j <= 1 /\ Zpos m' * 2 ^ j = m.
Proof.
  intros Hm He He'.
  destruct (Z.eq_dec m (2 ^ 53)) as [-> | Hne].
  - rewrite shr_fexp_54 by lia.
    exists (2 ^ 52)%positive, 1. split; [|split; [lia | reflexivity]].
    cbn [shr_record_of_loc]. change (shr_m (shr_1 _)) with (Zpos (2 ^ 52)).
    cbv iota beta.
    replace (Z.leb (e + 1) (Z.sub 1024 53)) with true; [reflexivity|].
    symmetry. apply Z.leb_le. change (Z.sub 1024 53) with 971. lia.
  - rewrite shr_fexp_53 by lia.
    exists (Z.to_pos m), 0. split; [|split; [lia | rewrite Z2Pos.id; lia]].
    cbn [shr_record_of_loc shr_m]. destruct m as [|p|p]; try lia.
    replace (Z.leb e (Z.sub 1024 53)) with true;
      [rewrite Z.add_0_r; reflexivity|].
    symmetry. apply Z.leb_le. change (Z.sub 1024 53) with 971. lia.
Qed.

Lemma binary_round_aux_bounds q e l :
  2 ^ 52 <= q < 2 ^ 54 -> -1074 <= e -> e + 2 <= 971 ->
  exists m' j,
    binary_round_aux 53 1024 false q e l = S754_finite false m' (e + j)
    /\ 0 <= j <= 2 /\ q - 1 <= Zpos m' * 2 ^ j <= q + 2.
Proof.
  intros Hq He He'. unfold binary_round_aux.
  destruct (Z.lt_ge_cases q (2 ^ 53)) as [Hlt | Hge].
  - rewrite shr_fexp_53 by lia.
    pose proof (round_nearest_even_bounds q
                  (loc_of_shr_record (shr_record_of_loc q l))) as Hb.
    rewrite shr_record_of_loc_m.
    destruct (round_second_stage
                (round_nearest_even q (loc_of_shr_record (shr_record_of_loc q l))) e)
      as (m' & j & Hres & Hj & Hv); try lia.
    exists m', j. split; [exact Hres|]. split; lia.
  - rewrite shr_fexp_54 by lia.
    destruct (shr_record_of_loc q l) as [m0 r0 s0] eqn:Hrec.
    assert (Hm0 : m0 = q).
    { rewrite <- (shr_record_of_loc_m q l), Hrec. reflexivity. }
    subst m0.
    pose proof (shr_1_m q r0 s0 ltac:(lia)) as Hhalf.
    set (mrs := shr_1 {| shr_m := q; shr_r := r0; shr_s := s0 |}) in *.
    pose proof (round_nearest_even_bounds (shr_m mrs) (loc_of_shr_record mrs)) as Hb.
    assert (Hdiv : 2 ^ 52 <= q / 2 < 2 ^ 53).
    { split.
      - apply Z.div_le_lower_bound; lia.
      - apply Z.div_lt_upper_bound; lia. }
    assert (Hq2 : q - 1 <= 2 * (q / 2) <= q).
    { pose proof (Z.div_mod q 2 ltac:(lia)). pose proof (Z.mod_pos_bound q 2 ltac:(lia)). lia. }
    destruct (round_second_stage
                (round_nearest_even (shr_m mrs) (loc_of_shr_record mrs)) (e + 1))
      as (m' & j & Hres & Hj & Hv); try lia.
    exists m', (1 + j). split; [|split].
    + rewrite Hres. f_equal. lia.
    + lia.
    + rewrite Z.pow_add_r by lia. change (2 ^ 1) with 2. lia.
Qed.

Lemma truediv_1000_within_one n :
  0 < n < 2 ^ 52 ->
  exists f, truediv_1000 n = OK f
            /\ (inject_Z (n - 1) < float_value f * 1000)%Q
            /\ (float_value f * 1000 < inject_Z (n + 1))%Q.
Proof.
  intros Hn.
  pose proof (Z.log2_nonneg n) as Hl0.
  assert (Hl : Z.log2 n < 52) by (apply Z.log2_lt_pow2; lia).
  pose proof (Z.log2_spec n ltac:(lia)) as Hspec.
  set (s := 62 - Z.log2 n).
  assert (Hs : 11 <= s <= 62) by (unfold s; lia).
  assert (Hpow : 2 ^ 62 <= n * 2 ^ s < 2 ^ 63).
  { replace 62 with (Z.log2 n + s) at 1 by (unfold s; lia).
    replace 63 with (Z.succ (Z.log2 n) + s) by (unfold s; lia).
    rewrite !Z.pow_add_r by lia.
    assert (0 < 2 ^ s) by (apply Z.pow_pos_nonneg; lia). nia. }
  destruct (Z.div_eucl (n * 2 ^ s) 1000) as [q r] eqn:Hdiv.
  assert (Hqr : n * 2 ^ s = 1000 * q + r /\ 0 <= r < 1000).
  { pose proof (Z.div_eucl_eq (n * 2 ^ s) 1000 ltac:(lia)) as E.
    pose proof (Z.mod_pos_bound (n * 2 ^ s) 1000 ltac:(lia)) as B.
    unfold Z.modulo in B. rewrite Hdiv in E, B. split; assumption. }
  destruct Hqr as [Hqr Hr].
  assert (Hq : 2 ^ 52 <= q < 2 ^ 54) by (change (2 ^ 52) with 4503599627370496;
    change (2 ^ 54) with 18014398509481984; change (2 ^ 62) with 4611686018427387904 in Hpow;
    change (2 ^ 63) with 9223372036854775808 in Hpow; lia).
  assert (Hcore : SFdiv_core_binary 53 1024 n 0 1000 0
                  = (q, - s, new_location 1000 r)).
  { unfold SFdiv_core_binary.
    rewrite (Zdigits2_log2 n) by lia.
    change (Zdigits2 1000) with 10.
    replace (Z.sub (Z.add (Z.log2 n + 1) 0) (Z.add 10 0))
      with (Z.log2 n - 9) by (change Z.sub with Z.sub; change Z.add with Z.add; lia).
    rewrite fexp_normal by lia.
    replace (Z.min (Z.log2 n - 9 - 53) (Z.sub 0 0)) with (- s)
      by (unfold s; change (Z.sub 0 0) with 0; lia).
    replace (Z.sub (Z.sub 0 0) (- s)) with s by (change (Z.sub 0 0) with 0; lia).
    assert (Hm : match s with
                 | Z0 => n
                 | Zpos _ => Z.shiftl n s
                 | Zneg _ => 0
                 end = n * 2 ^ s).
    { destruct s as [|ps|ps] eqn:Es; try lia.
      rewrite Z.shiftl_mul_pow2 by lia. reflexivity. }
    rewrite Hm. change (IntDef.Z.div_eucl (n * 2 ^ s) 1000) with (Z.div_eucl (n * 2 ^ s) 1000).
    rewrite Hdiv. reflexivity. }
  unfold truediv_1000.
  assert (Hop : int_operand n = S754_finite false (Z.to_pos n) 0).
  { destruct n as [|p|p]; try lia. reflexivity. }
  rewrite Hop. cbn [int_operand SFdiv xorb].
  rewrite Z2Pos.id by lia. rewrite Hcore.
  destruct (binary_round_aux_bounds q (- s) (new_location 1000 r))
    as (m' & j & Hres & Hj & Hv); try lia.
  rewrite Hres. eexists. split; [reflexivity|].
  assert (H2s : 2 ^ s = 2 ^ (s - j) * 2 ^ j).
  { rewrite <- Z.pow_add_r by lia. f_equal. lia. }
  assert (H2048 : 2048 <= 2 ^ s).
  { change 2048 with (2 ^ 11). apply Z.pow_le_mono_r; lia. }
  assert (Hpj : 0 < 2 ^ j) by (apply Z.pow_pos_nonneg; lia).
  assert (Hpsj : 0 < 2 ^ (s - j)) by (apply Z.pow_pos_nonneg; lia).
  assert (Hgoal : (n - 1) * 2 ^ (s - j) < 1000 * Zpos m').
  { apply (Z.mul_lt_mono_pos_r (2 ^ j)); [exact Hpj|].
    replace ((n - 1) * 2 ^ (s - j) * 2 ^ j) with (n * 2 ^ s - 2 ^ s)
      by (rewrite H2s; ring).
    nia. }
  assert (Hgoal' : 1000 * Zpos m' < (n + 1) * 2 ^ (s - j)).
  { apply (Z.mul_lt_mono_pos_r (2 ^ j)); [exact Hpj|].
    replace ((n + 1) * 2 ^ (s - j) * 2 ^ j) with (n * 2 ^ s + 2 ^ s)
      by (rewrite H2s; ring).
    nia. }
  unfold float_value. cbn [cond_Zopp].
  destruct (- s + j) as [|pe|pe] eqn:Ee; try lia.
  assert (Hpe : Zpos pe = s - j) by lia.
  unfold Qlt. cbn [Qnum Qden inject_Z Qmult].
  rewrite Pos.mul_1_r, Pos2Z.inj_pow, Hpe. split; lia.
Qed.

(** [0 / 1000] is [0.0]. *)
Lemma truediv_1000_zero : truediv_1000 0 = OK (S754_zero false).
Proof. reflexivity. Qed.

(** ** The long-poll deadline *)

Section Deadline.
Context `{Collaborators}.

Lemma get_timeout_of self (T D : Z) :
  config self !! "asyncResponseTimeout" = Some (PInt T) ->
  config self !! "timeoutDeltaMillis" = Some (PInt D) ->
  __get_fetch_and_lock_http_timeout_seconds self = truediv_1000 (D + T).
Proof.
  intros HT HD. unfold __get_fetch_and_lock_http_timeout_seconds.
  rewrite (dict_getitem_OK _ _ _ HD). cbn.
  rewrite (dict_getitem_OK _ _ _ HT). reflexivity.
Qed.

(** C1, as amended.  With integers [asyncResponseTimeout = T] and
    [timeoutDeltaMillis = D] in the configuration, the timeout computed for
    fetch_and_lock is the float Python gives for [(D + T) / 1000], the double
    nearest to the exact quotient, and it is the timeout of every request
    fetch_and_lock hands to the transport; when the division raises, no
    request is built.  For [0 < T + D < 2^52] the division does not raise and
    the deadline is within one millisecond of [T + D], so it exceeds [T]
    milliseconds whenever [D] is positive.  When [T + D] is a multiple of 1000
    below [1000 * 2^53] the deadline is exactly [T + D] milliseconds, and it
    exceeds [T] exactly when [D] is positive. *)
Theorem C1_deadline_is_T_plus_D self (T D : Z) :
  config self !! "asyncResponseTimeout" = Some (PInt T) ->
  config self !! "timeoutDeltaMillis" = Some (PInt D) ->
  __get_fetch_and_lock_http_timeout_seconds self = truediv_1000 (D + T)
  /\ (forall topic_names process_variables variables req,
        fetch_and_lock_request self topic_names process_variables variables = OK req ->
        truediv_1000 (D + T) = OK (timeout req))
  /\ (0 < T + D < 2 ^ 52 ->
        exists q,
          __get_fetch_and_lock_http_timeout_seconds self = OK q
          /\ (inject_Z (T + D - 1) < float_value q * 1000)%Q
          /\ (float_value q * 1000 < inject_Z (T + D + 1))%Q
          /\ (0 < D -> (inject_Z T < float_value q * 1000)%Q))
  /\ (forall k, 0 <= k < 2 ^ 53 -> T + D = 1000 * k ->
        exists q,
          __get_fetch_and_lock_http_timeout_seconds self = OK q
          /\ (float_value q * 1000 == inject_Z (T + D))%Q
          /\ ((inject_Z T < float_value q * 1000)%Q <-> 0 < D)).
Proof.
  intros HT HD. pose proof (get_timeout_of self T D HT HD) as Hq.
  split; [exact Hq|]. split; [|split].
  - intros tn pv vars req Hreq. unfold fetch_and_lock_request in Hreq.
    apply bind_OK_inv in Hreq as (body & _ & Hreq).
    apply bind_OK_inv in Hreq as (q & Hq' & Hreq).
    apply bind_OK_inv in Hreq as (h & _ & Hreq).
    injection Hreq as <-. cbn. rewrite <- Hq. exact Hq'.
  - intros Hn. replace (D + T) with (T + D) in Hq by lia.
    destruct (truediv_1000_within_one (T + D) Hn) as (q & Hdiv & Hlo & Hhi).
    exists q. rewrite Hq. split; [exact Hdiv|]. split; [exact Hlo|].
    split; [exact Hhi|].
    intros HD0. eapply Qle_lt_trans; [|exact Hlo].
    rewrite <- Zle_Qle. lia.
  - intros k Hk Hmul. replace (D + T) with (1000 * k) in Hq by lia.
    assert (Hex : exists q, truediv_1000 (1000 * k) = OK q
                            /\ (float_value q == inject_Z k)%Q).
    { destruct (Z.eq_dec k 0) as [-> | Hk0].
      - exists (S754_zero false). split; reflexivity.
      - apply truediv_1000_exact. lia. }
    destruct Hex as (q & Hdiv & Hval).
    exists q. rewrite Hq. split; [exact Hdiv|].
    assert (Hms : (float_value q * 1000 == inject_Z (T + D))%Q).
    { rewrite Hval, Hmul. unfold Qeq. cbn. lia. }
    split; [exact Hms|].
    rewrite Hms. rewrite <- Zlt_Qlt. lia.
Qed.

End Deadline.

Lemma C1_deadline_is_T_plus_D_witness :
  exists q : spec_float,
    __get_fetch_and_lock_http_timeout_seconds (demo_client ∅) = OK q
    /\ (float_value q * 1000 == inject_Z (30000 + 5000))%Q
    /\ (inject_Z 30000 < float_value q * 1000)%Q.
Proof.
  destruct (@C1_deadline_is_T_plus_D (demo (answering 200 None)) (demo_client ∅) 30000 5000)
    as (_ & _ & _ & Hexact).
  - reflexivity.
  - reflexivity.
  - destruct (Hexact 35) as (q & Hq & Hms & Hgt); [lia | reflexivity |].
    exists q. split; [exact Hq|]. split; [exact Hms|]. apply Hgt. lia.
Defined.

(** C1 as stated fails.  A client configured with [timeoutDeltaMillis = 0]
    and the default [asyncResponseTimeout = 30000] gets a deadline of 30
    seconds, which is not greater than 30000 ms.  With
    [asyncResponseTimeout = 1001] and [timeoutDeltaMillis = 0] the deadline is
    the double nearest to 1.001, which is not exactly 1001 ms but less. *)
Lemma C1_zero_delta_not_strictly_greater :
  (exists self q,
     @init (demo (answering 200 None)) (PStr "worker") "http://engine"
        (Some {["timeoutDeltaMillis" := PInt 0]}) = OK self
     /\ config self !! "asyncResponseTimeout" = Some (PInt 30000)
     /\ config self !! "timeoutDeltaMillis" = Some (PInt 0)
     /\ __get_fetch_and_lock_http_timeout_seconds self = OK q
     /\ ~ (inject_Z 30000 < float_value q * 1000)%Q)
  /\ (exists self q,
     @init (demo (answering 200 None)) (PStr "worker") "http://engine"
        (Some (<["timeoutDeltaMillis" := PInt 0]>
               {["asyncResponseTimeout" := PInt 1001]})) = OK self
     /\ config self !! "asyncResponseTimeout" = Some (PInt 1001)
     /\ config self !! "timeoutDeltaMillis" = Some (PInt 0)
     /\ __get_fetch_and_lock_http_timeout_seconds self = OK q
     /\ ~ (float_value q * 1000 == inject_Z (1001 + 0))%Q
     /\ (float_value q * 1000 < inject_Z 1001)%Q).
Proof.
  split.
  - eexists. eexists.
    split; [vm_compute; reflexivity|].
    split; [vm_compute; reflexivity|].
    split; [vm_compute; reflexivity|].
    split; [vm_compute; reflexivity|].
    unfold Qlt. cbn. lia.
  - eexists. eexists.
    split; [vm_compute; reflexivity|].
    split; [vm_compute; reflexivity|].
    split; [vm_compute; reflexivity|].
    split; [vm_compute; reflexivity|].
    split; [unfold Qeq; cbn; lia | unfold Qlt; cbn; lia].
Qed.

(** ** Responses and errors *)

Section Outcomes.
Context `{Collaborators}.

Lemma client_post_surfaces {A} req (k : response -> result A) :
  (forall r, is_success (status_code r) = false ->
     exists e, k r = Raise e /\ kind_of e = KOrchestrator
               /\ status_of e = Some (status_code r)) ->
  surfaces (transport req) (client_post req ≫= k).
Proof.
  intros Hk. unfold surfaces, client_post.
  destruct (transport req) as [r| |]; cbn.
  - apply Hk.
  - exists TimeoutException. split; reflexivity.
  - exists ConnectError. split; reflexivity.
Qed.

Lemma after_raise_exception_if_not_ok {A} r (k : result A) :
  is_success (status_code r) = false ->
  exists e, (raise_exception_if_not_ok r ≫= fun _ => k) = Raise e
            /\ kind_of e = KOrchestrator /\ status_of e = Some (status_code r).
Proof.
  intros Hs. unfold raise_exception_if_not_ok. rewrite Hs.
  eexists. split; [reflexivity|]. split; reflexivity.
Qed.

Lemma after_raise_for_status {A} r (k : result A) :
  is_success (status_code r) = false ->
  exists e, (raise_for_status r ≫= fun _ => k) = Raise e
            /\ kind_of e = KOrchestrator /\ status_of e = Some (status_code r).
Proof.
  intros Hs. unfold raise_for_status. rewrite Hs.
  eexists. split; [reflexivity|]. split; reflexivity.
Qed.

(** C2.  For each of fetch_and_lock, complete, failure and bpmn_failure: once
    the request is built and handed to the transport, a response whose status
    is not 2xx makes the operation raise an orchestrator-kind exception
    carrying that status (the exception of [raise_exception_if_not_ok] for the
    first three, httpx's [HTTPStatusError] for bpmn_failure), and a timeout
    makes it raise httpx's timeout exception, of the transport kind; the two
    kinds are distinct. *)
Theorem C2_non_2xx_and_timeout_raise_distinct_kinds self :
  (forall tn pv vars req,
     fetch_and_lock_request self tn pv vars = OK req ->
     surfaces (transport req) (fetch_and_lock self tn pv vars))
  /\ (forall tid gv lv req,
     complete_request self tid gv lv = OK req ->
     surfaces (transport req) (complete self tid gv lv))
  /\ (forall tid msg details retries rt req,
     failure_request self tid msg details retries rt = OK req ->
     surfaces (transport req) (failure self tid msg details retries rt))
  /\ (forall tid code msg vars req,
     bpmn_failure_request self tid code msg vars = OK req ->
     surfaces (transport req) (bpmn_failure self tid code msg vars))
  /\ kind_of TimeoutException = KTransport
  /\ KTransport <> KOrchestrator.
Proof.
  repeat split; try discriminate.
  - intros tn pv vars req Hreq. unfold fetch_and_lock. rewrite Hreq. cbn.
    apply client_post_surfaces. intros r. apply after_raise_exception_if_not_ok.
  - intros tid gv lv req Hreq. unfold complete. rewrite Hreq. cbn.
    apply client_post_surfaces. intros r. apply after_raise_exception_if_not_ok.
  - intros tid msg details retries rt req Hreq. unfold failure. rewrite Hreq. cbn.
    apply client_post_surfaces. intros r. apply after_raise_exception_if_not_ok.
  - intros tid code msg vars req Hreq. unfold bpmn_failure. rewrite Hreq. cbn.
    apply client_post_surfaces. intros r. apply after_raise_for_status.
Qed.

(** The boolean of a reporting operation, for a response [r] that passed the
    status check [check]. *)
Lemma reported_boolean (check : response -> result unit) req r :
  transport req = Responded r ->
  (is_success (status_code r) = true -> check r = OK tt) ->
  (is_success (status_code r) = false -> exists e, check r = Raise e) ->
  let res := client_post req ≫= fun response =>
             check response ≫= fun _ =>
             mret (status_code response =? NO_CONTENT) in
  (200 <= status_code r <= 299 ->
     exists b : bool, res = OK b /\ (b = true <-> status_code r = 204))
  /\ (~ 200 <= status_code r <= 299 -> exists e, res = Raise e).
Proof.
  intros Ht Hok Hbad res. subst res. unfold client_post. rewrite Ht. cbn.
  destruct (is_success (status_code r)) eqn:Hs; unfold is_success in Hs.
  - split; [|lia]. intros _. rewrite (Hok eq_refl). cbn.
    exists (status_code r =? NO_CONTENT). split; [reflexivity|].
    unfold NO_CONTENT. lia.
  - split; [lia|]. intros _. destruct (Hbad eq_refl) as [e ->].
    exists e. reflexivity.
Qed.

(** C3.  For each of complete, failure and bpmn_failure, when the transport
    answers the operation's request with a response of status [s]: if [s] is
    2xx the operation returns a boolean, which is [true] if and only if
    [s = 204]; if [s] is not 2xx the operation raises. *)
Theorem C3_true_iff_204 self :
  (forall tid gv lv req r,
     complete_request self tid gv lv = OK req ->
     transport req = Responded r ->
     (200 <= status_code r <= 299 ->
        exists b : bool, complete self tid gv lv = OK b
                         /\ (b = true <-> status_code r = 204))
     /\ (~ 200 <= status_code r <= 299 ->
        exists e, complete self tid gv lv = Raise e))
  /\ (forall tid msg details retries rt req r,
     failure_request self tid msg details retries rt = OK req ->
     transport req = Responded r ->
     (200 <= status_code r <= 299 ->
        exists b : bool, failure self tid msg details retries rt = OK b
                         /\ (b = true <-> status_code r = 204))
     /\ (~ 200 <= status_code r <= 299 ->
        exists e, failure self tid msg details retries rt = Raise e))
  /\ (forall tid code msg vars req r,
     bpmn_failure_request self tid code msg vars = OK req ->
     transport req = Responded r ->
     (200 <= status_code r <= 299 ->
        exists b : bool, bpmn_failure self tid code msg vars = OK b
                         /\ (b = true <-> status_code r = 204))
     /\ (~ 200 <= status_code r <= 299 ->
        exists e, bpmn_failure self tid code msg vars = Raise e)).
Proof.
  split; [|split].
  - intros tid gv lv req r Hreq Ht. unfold complete. rewrite Hreq.
    apply (reported_boolean raise_exception_if_not_ok req r Ht);
      unfold raise_exception_if_not_ok; intros ->; eauto.
  - intros tid msg details retries rt req r Hreq Ht. unfold failure. rewrite Hreq.
    apply (reported_boolean raise_exception_if_not_ok req r Ht);
      unfold raise_exception_if_not_ok; intros ->; eauto.
  - intros tid code msg vars req r Hreq Ht. unfold bpmn_failure. rewrite Hreq.
    apply (reported_boolean raise_for_status req r Ht);
      unfold raise_for_status; intros ->; eauto.
Qed.

End Outcomes.

Lemma C2_non_2xx_and_timeout_raise_distinct_kinds_witness :
  (exists e, @complete (demo (answering 503 None)) (demo_client ∅) (PStr "t1") PNone PNone
             = Raise e /\ kind_of e = KOrchestrator /\ status_of e = Some 503)
  /\ (exists e, @bpmn_failure (demo (fun _ => TimedOut)) (demo_client ∅)
                  (PStr "t1") (PStr "E42") (PStr "no stock") PNone
                = Raise e /\ kind_of e = KTransport).
Proof.
  split.
  - destruct (@C2_non_2xx_and_timeout_raise_distinct_kinds
                (demo (answering 503 None)) (demo_client ∅)) as (_ & Hc & _).
    eapply (Hc (PStr "t1") PNone PNone).
    + vm_compute. reflexivity.
    + reflexivity.
  - destruct (@C2_non_2xx_and_timeout_raise_distinct_kinds
                (demo (fun _ => TimedOut)) (demo_client ∅)) as (_ & _ & _ & Hb & _).
    eapply (Hb (PStr "t1") (PStr "E42") (PStr "no stock") PNone).
    vm_compute. reflexivity.
Defined.

Lemma C3_true_iff_204_witness :
  (exists b : bool,
     @failure (demo (answering 204 None)) (demo_client ∅)
        (PStr "t1") (PStr "boom") PNone (PInt 2) (PInt 1000) = OK b
     /\ (b = true <-> 204 = 204))
  /\ (exists b : bool,
     @failure (demo (answering 200 None)) (demo_client ∅)
        (PStr "t1") (PStr "boom") PNone (PInt 2) (PInt 1000) = OK b
     /\ (b = true <-> 200 = 204))
  /\ (exists e,
     @failure (demo (answering 404 None)) (demo_client ∅)
        (PStr "t1") (PStr "boom") PNone (PInt 2) (PInt 1000) = Raise e).
Proof.
  split; [|split].
  - destruct (@C3_true_iff_204 (demo (answering 204 None)) (demo_client ∅)) as (_ & Hf & _).
    edestruct (Hf (PStr "t1") (PStr "boom") PNone (PInt 2) (PInt 1000)) as [Hok _].
    + vm_compute. reflexivity.
    + reflexivity.
    + apply Hok. cbn. lia.
  - destruct (@C3_true_iff_204 (demo (answering 200 None)) (demo_client ∅)) as (_ & Hf & _).
    edestruct (Hf (PStr "t1") (PStr "boom") PNone (PInt 2) (PInt 1000)) as [Hok _].
    + vm_compute. reflexivity.
    + reflexivity.
    + apply Hok. cbn. lia.
  - destruct (@C3_true_iff_204 (demo (answering 404 None)) (demo_client ∅)) as (_ & Hf & _).
    edestruct (Hf (PStr "t1") (PStr "boom") PNone (PInt 2) (PInt 1000)) as [_ Hbad].
    + vm_compute. reflexivity.
    + reflexivity.
    + apply Hbad. cbn. lia.
Defined.

(** ** Request bodies *)

Section Bodies.
Context `{Collaborators}.

Lemma fetch_and_lock_body_list w u cfg self names pv vars :
  init w u cfg = OK self ->
  exists ld dv art up so,
    config self !! "lockDuration" = Some ld
    /\ config self !! "deserializeValues" = Some dv
    /\ fetch_and_lock_body self (PList names) pv vars
       = OK (PDict
           (<["workerId" := PStr (py_str w)]>
           (<["maxTasks" := PInt 1]>
           (<["topics" := PList ((fun n => PDict (<["topicName" := n]>
                                    (shared_fields self pv vars ld dv))) <$> names)]>
           (<["asyncResponseTimeout" := art]>
           (<["usePriority" := up]>
           (<["sorting" := so]> ∅))))))).
Proof.
  intros Hinit.
  destruct (init_has_defaults _ _ _ _ "lockDuration" _ Hinit eq_refl) as [ld Hld].
  destruct (init_has_defaults _ _ _ _ "deserializeValues" _ Hinit eq_refl) as [dv Hdv].
  destruct (init_has_defaults _ _ _ _ "asyncResponseTimeout" _ Hinit eq_refl) as [art Hart].
  destruct (init_has_defaults _ _ _ _ "usePriority" _ Hinit eq_refl) as [up Hup].
  destruct (init_has_defaults _ _ _ _ "sorting" _ Hinit eq_refl) as [so Hso].
  exists ld, dv, art, up, so. split; [exact Hld|]. split; [exact Hdv|].
  unfold fetch_and_lock_body.
  rewrite (get_topics_list _ _ _ _ _ _ Hld Hdv). cbn.
  rewrite (dict_getitem_OK _ _ _ Hart). cbn.
  rewrite (dict_getitem_OK _ _ _ Hup). cbn.
  rewrite (dict_getitem_OK _ _ _ Hso). cbn.
  apply init_config in Hinit as [_ ->]. reflexivity.
Qed.

(** C4.  On a constructed client, fetch_and_lock given a list of topic names
    puts under [topics] exactly one subscription per name, in the order of the
    names: the i-th subscription is the shared fields with [topicName] set to
    the i-th name, and the shared [processVariables] is the argument (or [{}]
    when that is falsy).  For the names ["a", "b"] and
    processVariables = {"x": {}} there are exactly two subscriptions, with
    topicName "a" and "b", the same [processVariables], and equal once
    [topicName] is removed. *)
Theorem C4_one_subscription_per_topic w u cfg self pv vars :
  init w u cfg = OK self ->
  (forall names, exists (common : gmap string pyval) body,
     common !! "topicName" = None
     /\ common !! "processVariables" = Some (if truthy pv then pv else PDict ∅)
     /\ _get_topics self (PList names) pv vars
        = OK ((fun n => PDict (<["topicName" := n]> common)) <$> names)
     /\ fetch_and_lock_body self (PList names) pv vars = OK body
     /\ body_field body "topics"
        = Some (PList ((fun n => PDict (<["topicName" := n]> common)) <$> names)))
  /\ (exists s1 s2 : gmap string pyval,
     _get_topics self (PList [PStr "a"; PStr "b"]) (PDict {["x" := PDict ∅]}) vars
     = OK [PDict s1; PDict s2]
     /\ s1 !! "topicName" = Some (PStr "a")
     /\ s2 !! "topicName" = Some (PStr "b")
     /\ s1 !! "processVariables" = Some (PDict {["x" := PDict ∅]})
     /\ s2 !! "processVariables" = Some (PDict {["x" := PDict ∅]})
     /\ delete "topicName" s1 = delete "topicName" s2).
Proof.
  intros Hinit. split.
  - intros names.
    destruct (fetch_and_lock_body_list _ _ _ _ names pv vars Hinit)
      as (ld & dv & art & up & so & Hld & Hdv & Hbody).
    exists (shared_fields self pv vars ld dv). eexists.
    split; [apply shared_fields_no_topicName|].
    split; [unfold shared_fields; by simplify_map_eq|].
    split; [apply get_topics_list; assumption|].
    split; [exact Hbody|].
    cbn. by simplify_map_eq.
  - destruct (fetch_and_lock_body_list _ _ _ _ [] pv vars Hinit)
      as (ld & dv & _ & _ & _ & Hld & Hdv & _).
    set (common := shared_fields self (PDict {["x" := PDict ∅]}) vars ld dv).
    exists (<["topicName" := PStr "a"]> common), (<["topicName" := PStr "b"]> common).
    split; [rewrite (get_topics_list _ _ _ _ _ _ Hld Hdv); reflexivity|].
    subst common.
    split; [by simplify_map_eq|].
    split; [by simplify_map_eq|].
    assert (Hpv : forall n : pyval,
      (<["topicName" := n]>
         (shared_fields self (PDict {["x" := PDict ∅]}) vars ld dv)
       : gmap string pyval) !! "processVariables"
      = Some (PDict {["x" := PDict ∅]})).
    { intros n. unfold shared_fields. rewrite lookup_insert_ne by discriminate.
      rewrite lookup_insert_ne by discriminate. rewrite lookup_insert_eq.
      reflexivity. }
    split; [apply Hpv|]. split; [apply Hpv|].
    rewrite !delete_insert_eq. reflexivity.
Qed.

(** C9.  On a constructed client, when [process_variables] is falsy ([None]
    in particular), every subscription built for a list of topic names has
    [processVariables = {}] and carries the [variables] argument unchanged
    under the key [variables]; the key is present also when the argument is
    [None]. *)
Theorem C9_falsy_process_variables w u cfg self names pv vars :
  init w u cfg = OK self ->
  truthy pv = false ->
  exists subs,
    _get_topics self (PList names) pv vars = OK subs
    /\ length subs = length names
    /\ forall s, s ∈ subs ->
         body_field s "processVariables" = Some (PDict ∅)
         /\ body_field s "variables" = Some vars.
Proof.
  intros Hinit Hpv.
  destruct (fetch_and_lock_body_list _ _ _ _ names pv vars Hinit)
    as (ld & dv & _ & _ & _ & Hld & Hdv & _).
  eexists. split; [apply get_topics_list; eassumption|].
  split; [apply length_fmap|].
  intros s Hs. apply list_elem_of_fmap in Hs as (n & -> & _).
  unfold shared_fields. rewrite Hpv. cbn. split; by simplify_map_eq.
Qed.

(** C8.  On a constructed client with worker id [w], the body fetch_and_lock
    builds for a list of topic names has [workerId = str(w)], a string, while
    the bodies of complete, failure and bpmn_failure have [workerId = w] as it
    is; so when [w] is not a string the two differ in type. *)
Theorem C8_worker_id_str_only_in_fetch w u cfg self :
  init w u cfg = OK self ->
  (forall names pv vars, exists body,
     fetch_and_lock_body self (PList names) pv vars = OK body
     /\ body_field body "workerId" = Some (PStr (py_str w)))
  /\ (forall gv lv, body_field (complete_body self gv lv) "workerId" = Some w)
  /\ (forall msg details retries rt,
     body_field (failure_body self msg details retries rt) "workerId" = Some w)
  /\ (forall code msg vars,
     body_field (bpmn_failure_body self code msg vars) "workerId" = Some w)
  /\ (type_of w <> TStr -> type_of (PStr (py_str w)) <> type_of w).
Proof.
  intros Hinit. split; [|split; [|split; [|split]]].
  - intros names pv vars.
    destruct (fetch_and_lock_body_list _ _ _ _ names pv vars Hinit)
      as (ld & dv & art & up & so & _ & _ & Hbody).
    eexists. split; [exact Hbody|]. cbn. by simplify_map_eq.
  - intros gv lv. apply init_config in Hinit as [_ Hw].
    unfold complete_body. cbn. rewrite Hw. by simplify_map_eq.
  - intros msg details retries rt. apply init_config in Hinit as [_ Hw].
    unfold failure_body. cbn. rewrite Hw.
    destruct (truthy details); by simplify_map_eq.
  - intros code msg vars. apply init_config in Hinit as [_ Hw].
    unfold bpmn_failure_body. cbn. rewrite Hw. by simplify_map_eq.
  - intros Hw Heq. apply Hw. symmetry. exact Heq.
Qed.

(** C6.  In every request failure hands to the transport, the body has no
    [errorDetails] key when [error_details] is [None] or the empty string (or
    any other falsy value), and has [errorDetails = error_details] when it is
    a non-empty string (or any other truthy value). *)
Theorem C6_error_details_omitted_when_empty self tid msg details retries rt req :
  failure_request self tid msg details retries rt = OK req ->
  (details = PNone \/ details = PStr "" -> body_field (json req) "errorDetails" = None)
  /\ (truthy details = false -> body_field (json req) "errorDetails" = None)
  /\ ((exists s, details = PStr s /\ s <> "") ->
      body_field (json req) "errorDetails" = Some details)
  /\ (truthy details = true -> body_field (json req) "errorDetails" = Some details).
Proof.
  intros Hreq. unfold failure_request in Hreq.
  apply bind_OK_inv in Hreq as (h & _ & Hreq). injection Hreq as <-.
  assert (Hfalsy : truthy details = false ->
            body_field (failure_body self msg details retries rt) "errorDetails" = None).
  { intros Ht. unfold failure_body. rewrite Ht. cbn. by simplify_map_eq. }
  assert (Htruthy : truthy details = true ->
            body_field (failure_body self msg details retries rt) "errorDetails"
            = Some details).
  { intros Ht. unfold failure_body. rewrite Ht. cbn. by simplify_map_eq. }
  cbn [json]. split; [|split; [|split]].
  - intros [-> | ->]; apply Hfalsy; reflexivity.
  - exact Hfalsy.
  - intros (s & -> & Hs). apply Htruthy. cbn.
    destruct s; [congruence | reflexivity].
  - exact Htruthy.
Qed.

(** C7.  Whenever the headers assemble, complete called with
    [local_variables = None] builds its request, for every task id and every
    [global_variables]: formatting [None] gives the empty JSON object, and
    that object is what the body has under [localVariables]. *)
Theorem C7_complete_accepts_absent_local_variables self tid gv h :
  _get_headers self = OK h ->
  Variables_format PNone = PDict ∅
  /\ exists req,
       complete_request self tid gv PNone = OK req
       /\ body_field (json req) "localVariables" = Some (Variables_format PNone)
       /\ body_field (json req) "localVariables" = Some (PDict ∅).
Proof.
  intros Hh. split; [reflexivity|].
  unfold complete_request. rewrite Hh. cbn.
  eexists. split; [reflexivity|]. cbn. split; by simplify_map_eq.
Qed.

End Bodies.

Lemma C4_one_subscription_per_topic_witness :
  exists subs,
    @_get_topics (demo (answering 200 None)) (demo_client ∅) (PList [PStr "a"; PStr "b"; PStr "c"]) PNone PNone = OK subs
    /\ length subs = 3%nat.
Proof.
  destruct (@C4_one_subscription_per_topic (demo (answering 200 None))
              (PInt 7) "http://engine" (Some ∅) (demo_client ∅) PNone PNone)
    as [Hall _].
  - vm_compute. reflexivity.
  - destruct (Hall [PStr "a"; PStr "b"; PStr "c"]) as (common & body & _ & _ & Ht & _).
    eexists. split; [exact Ht | reflexivity].
Defined.

Lemma C9_falsy_process_variables_witness :
  exists subs,
    @_get_topics (demo (answering 200 None)) (demo_client ∅) (PList [PStr "a"; PStr "b"]) (PDict ∅) PNone = OK subs
    /\ forall s, s ∈ subs ->
         body_field s "processVariables" = Some (PDict ∅)
         /\ body_field s "variables" = Some PNone.
Proof.
  destruct (@C9_falsy_process_variables (demo (answering 200 None))
              (PInt 7) "http://engine" (Some ∅) (demo_client ∅)
              [PStr "a"; PStr "b"] (PDict ∅) PNone) as (subs & Ht & _ & Hs).
  - vm_compute. reflexivity.
  - reflexivity.
  - exists subs. split; [exact Ht | exact Hs].
Defined.

Lemma C8_worker_id_str_only_in_fetch_witness :
  type_of (PStr (@py_str (demo (answering 200 None)) (PInt 7))) <> type_of (PInt 7).
Proof.
  destruct (@C8_worker_id_str_only_in_fetch (demo (answering 200 None))
              (PInt 7) "http://engine" (Some ∅) (demo_client ∅))
    as (_ & _ & _ & _ & Hty).
  - vm_compute. reflexivity.
  - apply Hty. discriminate.
Defined.

Lemma C6_error_details_omitted_when_empty_witness :
  exists req,
    @failure_request (demo (answering 204 None)) (demo_client ∅)
      (PStr "t1") (PStr "boom") (PStr "") (PInt 0) (PInt 1000) = OK req
    /\ body_field (json req) "errorDetails" = None.
Proof.
  eexists. split; [vm_compute; reflexivity|].
  edestruct (@C6_error_details_omitted_when_empty (demo (answering 204 None)) (demo_client ∅)
               (PStr "t1") (PStr "boom") (PStr "") (PInt 0) (PInt 1000)) as [Hempty _].
  - vm_compute. reflexivity.
  - apply Hempty. right. reflexivity.
Defined.

Lemma C7_complete_accepts_absent_local_variables_witness :
  exists req,
    @complete_request (demo (answering 204 None)) (demo_client ∅)
      (PStr "t1") (PDict ∅) PNone = OK req
    /\ body_field (json req) "localVariables" = Some (PDict ∅).
Proof.
  edestruct (@C7_complete_accepts_absent_local_variables (demo (answering 204 None))
               (demo_client ∅) (PStr "t1") (PDict ∅)) as (_ & req & Hreq & _ & Hlv).
  - vm_compute. reflexivity.
  - exists req. split; [exact Hreq | exact Hlv].
Defined.

(** ** Authentication headers *)

Section Headers.
Context `{Collaborators}.

Lemma dict_truthy_ne {A} (d : gmap string A) : d <> ∅ -> dict_truthy d = true.
Proof.
  intros Hd. unfold dict_truthy.
  apply map_size_non_empty_iff in Hd.
  destruct (size d); [congruence | reflexivity].
Qed.

Lemma dict_truthy_false {A} (d : gmap string A) : dict_truthy d = false -> d = ∅.
Proof.
  unfold dict_truthy. intros Hd. apply map_size_empty_iff.
  destruct (size d); [reflexivity | discriminate].
Qed.

Lemma dict_truthy_singleton {A} (k : string) (a : A) :
  dict_truthy ({[k := a]} : gmap string A) = true.
Proof. apply dict_truthy_ne. apply map_non_empty_singleton. Qed.

Lemma auth_basic_configured self d token :
  config self !! "auth_basic" = Some (PDict d) -> d <> ∅ ->
  AuthBasic_token d = OK token ->
  auth_basic self = OK {["Authorization" := token]}.
Proof.
  intros Hc Hd Ht. unfold auth_basic, dict_get. rewrite Hc. cbn.
  rewrite (dict_truthy_ne _ Hd). cbn. rewrite Ht. reflexivity.
Qed.

Lemma auth_bearer_configured self d token :
  config self !! "auth_bearer" = Some (PDict d) -> d <> ∅ ->
  AuthBearer_access_token d = OK token ->
  auth_bearer self = OK {["Authorization" := token]}.
Proof.
  intros Hc Hd Ht. unfold auth_bearer, dict_get. rewrite Hc. cbn.
  rewrite (dict_truthy_ne _ Hd). cbn. rewrite Ht. reflexivity.
Qed.

(** The headers as a function of what the two properties return. *)
Lemma get_headers_of self basic bearer :
  auth_basic self = OK basic -> auth_bearer self = OK bearer ->
  _get_headers self
  = OK (dict_update (dict_update {["Content-Type" := "application/json"]} basic) bearer).
Proof.
  intros Hb Hr. unfold _get_headers. rewrite Hb, Hr. cbn.
  destruct (dict_truthy basic) eqn:Eb; cbn;
    destruct (dict_truthy bearer) eqn:Er; cbn;
    try (apply dict_truthy_false in Eb as ->);
    try (apply dict_truthy_false in Er as ->);
    unfold dict_update; rewrite ?(left_id_L ∅ (∪)); reflexivity.
Qed.

(** C5.  When [auth_basic] and [auth_bearer] are both configured (each a
    non-empty dict from which its strategy produces a token), the assembled
    headers have the bearer strategy's token under [Authorization].  When
    neither is configured (both entries absent or [None]), the headers
    assemble and have no [Authorization] key. *)
Theorem C5_bearer_wins_over_basic self :
  (forall db dr tb tr,
     config self !! "auth_basic" = Some (PDict db) -> db <> ∅ ->
     config self !! "auth_bearer" = Some (PDict dr) -> dr <> ∅ ->
     AuthBasic_token db = OK tb ->
     AuthBearer_access_token dr = OK tr ->
     exists h, _get_headers self = OK h /\ h !! "Authorization" = Some tr)
  /\ (dict_get (config self) "auth_basic" = PNone ->
      dict_get (config self) "auth_bearer" = PNone ->
      exists h, _get_headers self = OK h /\ h !! "Authorization" = None).
Proof.
  split.
  - intros db dr tb tr Hcb Hdb Hcr Hdr Htb Htr.
    eexists. split.
    + apply get_headers_of.
      * eapply auth_basic_configured; eassumption.
      * eapply auth_bearer_configured; eassumption.
    + unfold dict_update. apply lookup_union_Some_l. apply lookup_singleton_eq.
  - intros Hb Hr. eexists. split.
    + apply get_headers_of.
      * unfold auth_basic. rewrite Hb. reflexivity.
      * unfold auth_bearer. rewrite Hr. reflexivity.
    + unfold dict_update. rewrite !(left_id_L ∅ (∪)).
      apply lookup_singleton_ne. discriminate.
Qed.

(** C10.  When the [auth_basic] entry is present but not a dict, the property
    [auth_basic] returns the empty dict without raising, and the headers are
    those the bearer property alone gives; likewise for [auth_bearer].  When
    both entries are of that shape, the headers assemble without error and
    hold [Content-Type] only. *)
Theorem C10_non_dict_credentials_ignored self :
  (forall v, config self !! "auth_basic" = Some v -> isinstance_dict v = false ->
     auth_basic self = OK ∅
     /\ _get_headers self
        = (bearer ← auth_bearer self;
           mret (dict_update {["Content-Type" := "application/json"]} bearer)))
  /\ (forall v, config self !! "auth_bearer" = Some v -> isinstance_dict v = false ->
     auth_bearer self = OK ∅
     /\ _get_headers self
        = (basic ← auth_basic self;
           mret (dict_update {["Content-Type" := "application/json"]} basic)))
  /\ (forall v v',
     config self !! "auth_basic" = Some v -> isinstance_dict v = false ->
     config self !! "auth_bearer" = Some v' -> isinstance_dict v' = false ->
     _get_headers self = OK {["Content-Type" := "application/json"]}).
Proof.
  assert (Hbasic : forall v, config self !! "auth_basic" = Some v ->
            isinstance_dict v = false -> auth_basic self = OK ∅).
  { intros v Hc Hv. unfold auth_basic, dict_get. rewrite Hc. cbn. rewrite Hv.
    rewrite orb_true_r. reflexivity. }
  assert (Hbearer : forall v, config self !! "auth_bearer" = Some v ->
            isinstance_dict v = false -> auth_bearer self = OK ∅).
  { intros v Hc Hv. unfold auth_bearer, dict_get. rewrite Hc. cbn. rewrite Hv.
    rewrite orb_true_r. reflexivity. }
  split; [|split].
  - intros v Hc Hv. split; [eauto|].
    destruct (auth_bearer self) as [bearer|e] eqn:Hr.
    + rewrite (get_headers_of self ∅ bearer) by eauto. cbn.
      unfold dict_update at 2. rewrite (left_id_L ∅ (∪)). reflexivity.
    + unfold _get_headers. rewrite (Hbasic v Hc Hv). cbn. rewrite Hr. reflexivity.
  - intros v Hc Hv. split; [eauto|].
    destruct (auth_basic self) as [basic|e] eqn:Hb.
    + rewrite (get_headers_of self basic ∅) by eauto. cbn.
      unfold dict_update at 1. rewrite (left_id_L ∅ (∪)). reflexivity.
    + unfold _get_headers. rewrite Hb. reflexivity.
  - intros v v' Hc Hv Hc' Hv'.
    rewrite (get_headers_of self ∅ ∅) by eauto.
    unfold dict_update. rewrite !(left_id_L ∅ (∪)). reflexivity.
Qed.

End Headers.

Lemma C5_bearer_wins_over_basic_witness :
  exists h,
    @_get_headers (demo (answering 204 None)) (demo_client both_auth_config) = OK h
    /\ h !! "Authorization" = Some "Bearer tok".
Proof.
  destruct (@C5_bearer_wins_over_basic (demo (answering 204 None))
              (demo_client both_auth_config)) as [Hboth _].
  apply (Hboth (<["username" := PStr "demo"]> (<["password" := PStr "secret"]> ∅))
               (<["access_token" := PStr "tok"]> ∅)
               "Basic demo:secret" "Bearer tok").
  - reflexivity.
  - intros E. vm_compute in E. discriminate E.
  - reflexivity.
  - intros E. vm_compute in E. discriminate E.
  - reflexivity.
  - reflexivity.
Defined.

Lemma C10_non_dict_credentials_ignored_witness :
  @_get_headers (demo (answering 204 None)) (demo_client malformed_auth_config)
  = OK {["Content-Type" := "application/json"]}.
Proof.
  destruct (@C10_non_dict_credentials_ignored (demo (answering 204 None))
              (demo_client malformed_auth_config)) as (_ & _ & Hboth).
  eapply Hboth.
  - vm_compute. reflexivity.
  - reflexivity.
  - vm_compute. reflexivity.
  - reflexivity.
Defined.

Example ex_headers_both :
  @_get_headers (demo (answering 204 None)) (demo_client both_auth_config)
  = OK (<["Authorization" := "Bearer tok"]> {["Content-Type" := "application/json"]}).
Proof. vm_compute. reflexivity. Qed.

Example ex_headers_malformed_basic_only :
  @_get_headers (demo (answering 204 None))
     (demo_client (<["auth_basic" := PDict (<["username" := PStr "demo"]> ∅)]> ∅))
  = Raise (CredentialError "auth_basic").
Proof. vm_compute. reflexivity. Qed.

(** * Further properties of the client *)

(** ** Construction *)

Section Construction.
Context `{Collaborators}.

(** X1.  [__init__] lays the caller's configuration over the defaults: a key the
    caller gives keeps the caller's value (also a key the defaults do not
    have), every other key has its default; the worker id is stored as given
    and the base URL is the engine URL followed by [/external-task]. *)
Theorem init_merges_over_defaults w u cfg self :
  init w u cfg = OK self ->
  worker_id self = w
  /\ external_task_base_url self = u +:+ "/external-task"
  /\ (forall k v, default ∅ cfg !! k = Some v -> config self !! k = Some v)
  /\ (forall k, default ∅ cfg !! k = None -> config self !! k = default_config !! k)
  /\ is_debug self = dict_get_default (default ∅ cfg) "isDebug" (PBool false).
Proof.
  intros Hinit. unfold init in Hinit.
  apply bind_OK_inv in Hinit as (t & _ & Hinit).
  apply bind_OK_inv in Hinit as (logged & _ & Hself).
  injection Hself as <-. cbn in *.
  split; [reflexivity|]. split; [reflexivity|].
  split; [|split; [|reflexivity]].
  - intros k v Hk. unfold dict_update. apply lookup_union_Some_l. exact Hk.
  - intros k Hk. unfold dict_update. apply lookup_union_r. exact Hk.
Qed.

(** X2.  What [__init__] can raise, in the order of its lines.  With [v] the
    [httpTimeoutMillis] of the merged configuration: when [v] is not a number
    ([None], a string, a list, a dict) construction raises [TypeError]; when
    [v] is an integer [n] whose quotient [n / 1000] is beyond the doubles it
    raises [OverflowError]; otherwise [self.http_timeout_seconds] is the float
    [n / 1000], and construction succeeds exactly when the
    [obfuscate_password] call of the last line returns, raising what that call
    raises when it does not.  Left at its default, [httpTimeoutMillis] gives a
    base timeout of exactly 30 seconds. *)
Theorem init_http_timeout w u cfg :
  let merged := dict_update default_config (default ∅ cfg) in
  let v := dict_get merged "httpTimeoutMillis" in
  (as_number v = None -> init w u cfg = Raise TypeError)
  /\ (forall n e, as_number v = Some n -> truediv_1000 n = Raise e ->
        init w u cfg = Raise e)
  /\ (forall n t e, as_number v = Some n -> truediv_1000 n = OK t ->
        obfuscate_password merged = Raise e -> init w u cfg = Raise e)
  /\ (forall n t logged, as_number v = Some n -> truediv_1000 n = OK t ->
        obfuscate_password merged = OK logged ->
        exists self, init w u cfg = OK self /\ http_timeout_seconds self = t)
  /\ (default ∅ cfg !! "httpTimeoutMillis" = None ->
        v = PInt 30000
        /\ exists t, truediv_1000 30000 = OK t /\ (float_value t == 30)%Q).
Proof.
  intros merged v. unfold init. fold merged. fold v. unfold div_1000.
  split; [|split; [|split; [|split]]].
  - intros ->. reflexivity.
  - intros n e -> ->. reflexivity.
  - intros n t e -> -> ->. reflexivity.
  - intros n t logged -> -> ->. eexists. split; reflexivity.
  - intros Hk. split.
    + unfold v, merged, dict_get, dict_update.
      rewrite lookup_union_r by exact Hk. reflexivity.
    + exists (S754_finite false 8444249301319680 (-48)).
      split; [vm_compute; reflexivity|]. unfold Qeq. vm_compute. reflexivity.
Qed.

End Construction.

Lemma init_merges_over_defaults_witness :
  exists self,
    @init (demo (answering 200 None)) (PInt 7) "http://engine" (Some both_auth_config)
    = OK self
    /\ config self !! "lockDuration" = Some (PInt 300000)
    /\ config self !! "auth_bearer"
       = Some (PDict (<["access_token" := PStr "tok"]> ∅)).
Proof.
  eexists. split; [vm_compute; reflexivity|].
  edestruct (@init_merges_over_defaults (demo (answering 200 None))
               (PInt 7) "http://engine" (Some both_auth_config))
    as (_ & _ & Hgiven & Hdefault & _).
  - vm_compute. reflexivity.
  - split.
    + rewrite (Hdefault "lockDuration"); reflexivity.
    + apply Hgiven. reflexivity.
Defined.

Lemma init_http_timeout_witness :
  @init (demo (answering 200 None)) (PInt 7) "http://engine"
     (Some {["httpTimeoutMillis" := PStr "30s"]}) = Raise TypeError
  /\ @init (demo (answering 200 None)) (PInt 7) "http://engine"
       (Some {["httpTimeoutMillis" := PInt (10 ^ 400)]}) = Raise OverflowError
  /\ @init (demo (answering 200 None)) (PInt 7) "http://engine"
       (Some malformed_auth_config) = Raise AttributeError.
Proof.
  split; [|split].
  - destruct (@init_http_timeout (demo (answering 200 None)) (PInt 7) "http://engine"
                (Some {["httpTimeoutMillis" := PStr "30s"]})) as (Hbad & _).
    apply Hbad. reflexivity.
  - destruct (@init_http_timeout (demo (answering 200 None)) (PInt 7) "http://engine"
                (Some {["httpTimeoutMillis" := PInt (10 ^ 400)]})) as (_ & Hover & _).
    apply (Hover (10 ^ 400)).
    + reflexivity.
    + vm_compute. reflexivity.
  - destruct (@init_http_timeout (demo (answering 200 None)) (PInt 7) "http://engine"
                (Some malformed_auth_config)) as (_ & _ & Hlog & _).
    eapply (Hlog 30000).
    + reflexivity.
    + vm_compute. reflexivity.
    + reflexivity.
Defined.

(** ** Timeouts of the reporting calls *)

Section BaseTimeout.
Context `{Collaborators}.

Lemma request_timeout_of (u : string) (body : pyval) (t : spec_float) self req :
  (headers ← _get_headers self;
   mret {| url := u; headers := headers; json := body; timeout := t |}) = OK req ->
  url req = u /\ json req = body /\ timeout req = t
  /\ _get_headers self = OK (headers req).
Proof.
  intros Hreq. apply bind_OK_inv in Hreq as (h & Hh & Hreq).
  injection Hreq as <-. cbn. repeat split; assumption.
Qed.

(** X3.  On a constructed client, every request of complete, failure and
    bpmn_failure carries the base timeout fixed at construction, the float
    [httpTimeoutMillis / 1000]; the long-poll settings [asyncResponseTimeout]
    and [timeoutDeltaMillis] play no part in it. *)
Theorem reporting_calls_use_base_timeout w u cfg self :
  init w u cfg = OK self ->
  exists n t,
    as_number (dict_get (config self) "httpTimeoutMillis") = Some n
    /\ truediv_1000 n = OK t
    /\ (forall tid gv lv req,
          complete_request self tid gv lv = OK req -> timeout req = t)
    /\ (forall tid msg details retries rt req,
          failure_request self tid msg details retries rt = OK req ->
          timeout req = t)
    /\ (forall tid code msg vars req,
          bpmn_failure_request self tid code msg vars = OK req ->
          timeout req = t).
Proof.
  intros Hinit. unfold init in Hinit.
  apply bind_OK_inv in Hinit as (t & Ht & Hinit).
  apply bind_OK_inv in Hinit as (logged & _ & Hself).
  unfold div_1000 in Ht.
  destruct (as_number _) as [n|] eqn:Hn in Ht; [|discriminate].
  injection Hself as <-. cbn.
  exists n, t. split; [exact Hn|]. split; [exact Ht|].
  split; [|split]; intros; eapply request_timeout_of; eassumption.
Qed.

End BaseTimeout.

Lemma reporting_calls_use_base_timeout_witness :
  exists req,
    @complete_request (demo (answering 204 None)) (demo_client ∅)
       (PStr "t1") PNone PNone = OK req
    /\ timeout req = S754_finite false 8444249301319680 (-48).
Proof.
  destruct (@reporting_calls_use_base_timeout (demo (answering 204 None))
              (PInt 7) "http://engine" (Some ∅) (demo_client ∅))
    as (n & t & Hn & Ht & Hc & _).
  - vm_compute. reflexivity.
  - vm_compute in Hn. injection Hn as <-.
    vm_compute in Ht. injection Ht as <-.
    eexists. split; [vm_compute; reflexivity|].
    eapply (Hc (PStr "t1") PNone PNone). vm_compute. reflexivity.
Defined.

(** ** Endpoints *)

Section Endpoints.
Context `{Collaborators}.

Lemma string_length_append (s t : string) :
  String.length (s +:+ t) = (String.length s + String.length t)%nat.
Proof. induction s as [|c s IH]; simpl; [reflexivity | f_equal; exact IH]. Qed.

(** A URL [base/<id><suffix>] is not [base/fetchAndLock] when [suffix] is one
    of the three task suffixes: the lengths force [<id>], and the characters
    then disagree. *)
Ltac not_fetch_and_lock E :=
  apply (inj (String.append _)) in E;
  let Hlen := fresh "Hlen" in
  pose proof (f_equal String.length E) as Hlen;
  rewrite !string_length_append in Hlen; simpl in Hlen;
  match type of E with
  | context [?id +:+ _] =>
      destruct id as [|? [|? [|? [|? [|? ?]]]]]; simpl in Hlen; try lia;
      simpl in E; discriminate E
  end.

(** X4.  The four operations address four different URLs, whatever the task id:
    the URLs of complete, failure and bpmn_failure for one task differ from
    each other, and none of them is the fetchAndLock URL. *)
Theorem endpoint_urls_distinct self tid :
  get_task_complete_url self tid <> get_task_failure_url self tid
  /\ get_task_complete_url self tid <> get_task_bpmn_error_url self tid
  /\ get_task_failure_url self tid <> get_task_bpmn_error_url self tid
  /\ get_fetch_and_lock_url self <> get_task_complete_url self tid
  /\ get_fetch_and_lock_url self <> get_task_failure_url self tid
  /\ get_fetch_and_lock_url self <> get_task_bpmn_error_url self tid.
Proof.
  unfold get_task_complete_url, get_task_failure_url, get_task_bpmn_error_url,
    get_fetch_and_lock_url.
  split; [|split; [|split; [|split; [|split]]]]; intros E.
  - do 3 apply (inj (String.append _)) in E. discriminate E.
  - do 3 apply (inj (String.append _)) in E. discriminate E.
  - do 3 apply (inj (String.append _)) in E. discriminate E.
  - not_fetch_and_lock E.
  - not_fetch_and_lock E.
  - not_fetch_and_lock E.
Qed.

End Endpoints.

(** ** fetch_and_lock *)

Section FetchAndLock.
Context `{Collaborators}.

Lemma init_base_url w u cfg self :
  init w u cfg = OK self -> external_task_base_url self = u +:+ "/external-task".
Proof.
  unfold init. intros Hinit. apply bind_OK_inv in Hinit as (t & _ & Hinit).
  apply bind_OK_inv in Hinit as (logged & _ & Hself).
  injection Hself as <-. reflexivity.
Qed.

(** X5.  On a constructed client whose long-poll settings are integers with a
    quotient [(D + T) / 1000] within the doubles, and whose headers assemble,
    fetch_and_lock given a list of topic names does build its request: it goes
    to [<engine>/external-task/fetchAndLock] with the assembled headers and
    that quotient as timeout, and its body asks for exactly one task
    ([maxTasks = 1], whatever [maxConcurrentTasks] is configured), carries the
    configured [asyncResponseTimeout], [usePriority] and [sorting], and has
    one topic per name. *)
Theorem fetch_and_lock_request_built w u cfg self names pv vars T D q h :
  init w u cfg = OK self ->
  config self !! "asyncResponseTimeout" = Some (PInt T) ->
  config self !! "timeoutDeltaMillis" = Some (PInt D) ->
  truediv_1000 (D + T) = OK q ->
  _get_headers self = OK h ->
  exists req subs,
    fetch_and_lock_request self (PList names) pv vars = OK req
    /\ url req = (u +:+ "/external-task") +:+ "/fetchAndLock"
    /\ headers req = h
    /\ timeout req = q
    /\ body_field (json req) "maxTasks" = Some (PInt 1)
    /\ body_field (json req) "asyncResponseTimeout" = Some (PInt T)
    /\ body_field (json req) "usePriority" = config self !! "usePriority"
    /\ body_field (json req) "sorting" = config self !! "sorting"
    /\ body_field (json req) "topics" = Some (PList subs)
    /\ length subs = length names.
Proof.
  intros Hinit HT HD Hq Hh.
  destruct (init_has_defaults _ _ _ _ "lockDuration" _ Hinit eq_refl) as [ld Hld].
  destruct (init_has_defaults _ _ _ _ "deserializeValues" _ Hinit eq_refl) as [dv Hdv].
  destruct (init_has_defaults _ _ _ _ "usePriority" _ Hinit eq_refl) as [up Hup].
  destruct (init_has_defaults _ _ _ _ "sorting" _ Hinit eq_refl) as [so Hso].
  eexists. eexists. unfold fetch_and_lock_request, fetch_and_lock_body.
  rewrite (get_topics_list _ _ _ _ _ _ Hld Hdv). cbn.
  rewrite (dict_getitem_OK _ _ _ HT). cbn.
  rewrite (dict_getitem_OK _ _ _ Hup). cbn.
  rewrite (dict_getitem_OK _ _ _ Hso). cbn.
  unfold __get_fetch_and_lock_http_timeout_seconds.
  rewrite (dict_getitem_OK _ _ _ HD). cbn.
  rewrite (dict_getitem_OK _ _ _ HT). cbn.
  unfold add_div_1000. cbn [as_number]. rewrite Hq. cbn.
  rewrite Hh. cbn.
  split; [reflexivity|]. cbn.
  apply init_base_url in Hinit as Hurl.
  unfold get_fetch_and_lock_url. rewrite Hurl, Hup, Hso.
  split; [reflexivity|]. split; [reflexivity|]. split; [reflexivity|].
  repeat (split; [by simplify_map_eq|]).
  apply length_fmap.
Qed.

(** X6.  Once fetch_and_lock has a response that passes the status check, its
    result is the decoded JSON body of the response, unchanged; a response
    whose body is not JSON (an empty body, say) makes it raise the decoding
    error instead of returning an empty result. *)
Theorem fetch_and_lock_returns_decoded_body self tn pv vars req r :
  fetch_and_lock_request self tn pv vars = OK req ->
  transport req = Responded r ->
  raise_exception_if_not_ok r = OK tt ->
  (forall v, json_body r = Some v -> fetch_and_lock self tn pv vars = OK v)
  /\ (json_body r = None -> fetch_and_lock self tn pv vars = Raise JSONDecodeError).
Proof.
  intros Hreq Ht Hok. unfold fetch_and_lock, client_post.
  rewrite Hreq. cbn. rewrite Ht. cbn. rewrite Hok. cbn.
  unfold response_json. split.
  - intros v ->. reflexivity.
  - intros ->. reflexivity.
Qed.

(** X7.  [__init__] does not look at the long-poll settings: a client constructed
    with an [asyncResponseTimeout] or [timeoutDeltaMillis] that is not a
    number is constructed all the same, and each of its fetch_and_lock calls
    on a list of topic names raises [TypeError], whatever the transport would
    answer. *)
Theorem fetch_and_lock_rejects_non_numeric_timeouts w u cfg self names pv vars :
  init w u cfg = OK self ->
  as_number (dict_get (config self) "timeoutDeltaMillis") = None
  \/ as_number (dict_get (config self) "asyncResponseTimeout") = None ->
  fetch_and_lock self (PList names) pv vars = Raise TypeError.
Proof.
  intros Hinit Hbad.
  destruct (fetch_and_lock_body_list _ _ _ _ names pv vars Hinit)
    as (ld & dv & art & up & so & _ & _ & Hbody).
  destruct (init_has_defaults _ _ _ _ "timeoutDeltaMillis" _ Hinit eq_refl) as [d Hd].
  destruct (init_has_defaults _ _ _ _ "asyncResponseTimeout" _ Hinit eq_refl) as [t Ht].
  unfold dict_get in Hbad. rewrite Hd, Ht in Hbad. cbn in Hbad.
  unfold fetch_and_lock, fetch_and_lock_request. rewrite Hbody. cbn.
  unfold __get_fetch_and_lock_http_timeout_seconds.
  rewrite (dict_getitem_OK _ _ _ Hd). cbn.
  rewrite (dict_getitem_OK _ _ _ Ht). cbn.
  unfold add_div_1000.
  destruct Hbad as [-> | Hbad]; [reflexivity|].
  rewrite Hbad. destruct (as_number d); reflexivity.
Qed.

(** X8.  With a string as worker id, all four operations send the same [workerId]:
    the [str()] that fetch_and_lock applies leaves a string as it is. *)
Theorem string_worker_id_sent_alike u cfg self (s : string) :
  init (PStr s) u cfg = OK self ->
  forall names pv vars, exists body,
    fetch_and_lock_body self (PList names) pv vars = OK body
    /\ body_field body "workerId" = Some (PStr s)
    /\ (forall gv lv, body_field (complete_body self gv lv) "workerId" = Some (PStr s))
    /\ (forall msg details retries rt,
          body_field (failure_body self msg details retries rt) "workerId"
          = Some (PStr s))
    /\ (forall code msg vars',
          body_field (bpmn_failure_body self code msg vars') "workerId"
          = Some (PStr s)).
Proof.
  intros Hinit names pv vars.
  destruct (fetch_and_lock_body_list _ _ _ _ names pv vars Hinit)
    as (ld & dv & art & up & so & _ & _ & Hbody).
  apply init_config in Hinit as [_ Hw].
  eexists. split; [exact Hbody|].
  split; [cbn; by simplify_map_eq|].
  split; [|split].
  - intros gv lv. unfold complete_body. cbn. rewrite Hw. by simplify_map_eq.
  - intros msg details retries rt. unfold failure_body. cbn. rewrite Hw.
    destruct (truthy details); by simplify_map_eq.
  - intros code msg vars'. unfold bpmn_failure_body. cbn. rewrite Hw.
    by simplify_map_eq.
Qed.

End FetchAndLock.

Lemma fetch_and_lock_request_built_witness :
  exists req subs,
    @fetch_and_lock_request (demo (answering 200 None)) (demo_client ∅)
       (PList [PStr "a"; PStr "b"]) PNone PNone = OK req
    /\ url req = "http://engine/external-task/fetchAndLock"
    /\ body_field (json req) "maxTasks" = Some (PInt 1)
    /\ body_field (json req) "topics" = Some (PList subs)
    /\ length subs = 2%nat.
Proof.
  destruct (@fetch_and_lock_request_built (demo (answering 200 None))
              (PInt 7) "http://engine" (Some ∅) (demo_client ∅)
              [PStr "a"; PStr "b"] PNone PNone 30000 5000
              (S754_finite false 4925812092436480 (-47))
              {["Content-Type" := "application/json"]})
    as (req & subs & Hreq & Hurl & _ & _ & Hmax & _ & _ & _ & Htopics & Hlen).
  - vm_compute. reflexivity.
  - reflexivity.
  - reflexivity.
  - vm_compute. reflexivity.
  - vm_compute. reflexivity.
  - exists req, subs. repeat split; assumption.
Defined.

Lemma fetch_and_lock_returns_decoded_body_witness :
  @fetch_and_lock (demo (answering 200 (Some (PList [])))) (demo_client ∅)
     (PList [PStr "a"]) PNone PNone = OK (PList [])
  /\ @fetch_and_lock (demo (answering 204 None)) (demo_client ∅)
       (PList [PStr "a"]) PNone PNone = Raise JSONDecodeError.
Proof.
  split.
  - edestruct (@fetch_and_lock_returns_decoded_body (demo (answering 200 (Some (PList []))))
                 (demo_client ∅) (PList [PStr "a"]) PNone PNone) as [Hjson _].
    + vm_compute. reflexivity.
    + reflexivity.
    + reflexivity.
    + apply Hjson. reflexivity.
  - edestruct (@fetch_and_lock_returns_decoded_body (demo (answering 204 None))
                 (demo_client ∅) (PList [PStr "a"]) PNone PNone) as [_ Hnone].
    + vm_compute. reflexivity.
    + reflexivity.
    + reflexivity.
    + apply Hnone. reflexivity.
Defined.

Lemma fetch_and_lock_rejects_non_numeric_timeouts_witness :
  exists self,
    @init (demo (answering 200 (Some (PList [])))) (PInt 7) "http://engine"
       (Some {["asyncResponseTimeout" := PNone]}) = OK self
    /\ @fetch_and_lock (demo (answering 200 (Some (PList [])))) self
         (PList [PStr "a"]) PNone PNone = Raise TypeError.
Proof.
  eexists. split; [vm_compute; reflexivity|].
  eapply (@fetch_and_lock_rejects_non_numeric_timeouts (demo (answering 200 (Some (PList []))))
            (PInt 7) "http://engine" (Some {["asyncResponseTimeout" := PNone]})).
  - vm_compute. reflexivity.
  - right. vm_compute. reflexivity.
Defined.

Lemma string_worker_id_sent_alike_witness :
  exists self body,
    @init (demo (answering 200 None)) (PStr "worker-1") "http://engine" None = OK self
    /\ @fetch_and_lock_body (demo (answering 200 None)) self
         (PList [PStr "a"]) PNone PNone = OK body
    /\ body_field body "workerId" = Some (PStr "worker-1").
Proof.
  eexists.
  edestruct (@string_worker_id_sent_alike (demo (answering 200 None))
               "http://engine" None) as (body & Hbody & Hw & _).
  - vm_compute. reflexivity.
  - exists body. split; [reflexivity|]. split; [exact Hbody | exact Hw].
Defined.

(** ** The fields of a subscription *)

Section Subscriptions.
Context `{Collaborators}.

(** X9.  On a constructed client, every subscription built for a list of topic
    names has exactly the six keys of the source's dict; [lockDuration] and
    [deserializeValues] are the configured values, and
    [includeExtensionProperties] is the configured value when that is truthy
    and [False] otherwise, so a caller who sets it to [None] or [0] sends
    [False], never [null]. *)
Theorem subscription_fields w u cfg self names pv vars :
  init w u cfg = OK self ->
  exists subs ld dv,
    _get_topics self (PList names) pv vars = OK subs
    /\ config self !! "lockDuration" = Some ld
    /\ config self !! "deserializeValues" = Some dv
    /\ forall s, s ∈ subs ->
         body_field s "lockDuration" = Some ld
         /\ body_field s "deserializeValues" = Some dv
         /\ body_field s "includeExtensionProperties"
            = Some (let v := dict_get (config self) "includeExtensionProperties" in
                    if truthy v then v else PBool false)
         /\ body_field s "includeExtensionProperties" <> Some PNone
         /\ exists d : gmap string pyval,
              s = PDict d
              /\ dom d = ({["topicName"; "lockDuration"; "processVariables";
                            "includeExtensionProperties"; "deserializeValues";
                            "variables"]} : gset string).
Proof.
  intros Hinit.
  destruct (init_has_defaults _ _ _ _ "lockDuration" _ Hinit eq_refl) as [ld Hld].
  destruct (init_has_defaults _ _ _ _ "deserializeValues" _ Hinit eq_refl) as [dv Hdv].
  eexists. exists ld, dv.
  split; [apply get_topics_list; eassumption|].
  split; [exact Hld|]. split; [exact Hdv|].
  intros s Hs. apply list_elem_of_fmap in Hs as (n & -> & _).
  unfold shared_fields, py_or. cbn.
  split; [by simplify_map_eq|]. split; [by simplify_map_eq|].
  split; [by simplify_map_eq|]. split.
  - rewrite lookup_insert_ne by discriminate.
    rewrite lookup_insert_ne by discriminate.
    rewrite lookup_insert_ne by discriminate.
    rewrite lookup_insert_eq.
    generalize (dict_get (config self) "includeExtensionProperties"). intros v.
    destruct (truthy v) eqn:E; [|discriminate].
    intros [= ->]. discriminate E.
  - eexists. split; [reflexivity|].
    rewrite !dom_insert_L, dom_empty_L. set_solver.
Qed.

End Subscriptions.

Lemma subscription_fields_witness :
  exists self subs,
    @init (demo (answering 200 None)) (PInt 7) "http://engine"
       (Some {["includeExtensionProperties" := PNone]}) = OK self
    /\ @_get_topics (demo (answering 200 None)) self (PList [PStr "a"]) PNone PNone
       = OK subs
    /\ forall s, s ∈ subs ->
         body_field s "includeExtensionProperties" = Some (PBool false).
Proof.
  eexists.
  edestruct (@subscription_fields (demo (answering 200 None)) (PInt 7) "http://engine"
               (Some {["includeExtensionProperties" := PNone]}))
    as (subs & ld & dv & Ht & _ & _ & Hs).
  - vm_compute. reflexivity.
  - exists subs. split; [reflexivity|]. split; [exact Ht|].
    intros s Hin. destruct (Hs s Hin) as (_ & _ & Hext & _).
    rewrite Hext. reflexivity.
Defined.

(** ** The body of a failure report *)

Section FailureBody.
Context `{Collaborators}.

(** X10.  In every request of failure, [errorMessage], [retries] and [retryTimeout]
    are the arguments as given, falsy or not (a [retries] of [0] is sent as
    [0], unlike a falsy [errorDetails], which is left out), and the body has
    no key beyond [workerId], these three and, when [error_details] is
    truthy, [errorDetails]. *)
Theorem failure_forwards_arguments self tid msg details retries rt req :
  failure_request self tid msg details retries rt = OK req ->
  body_field (json req) "workerId" = Some (worker_id self)
  /\ body_field (json req) "errorMessage" = Some msg
  /\ body_field (json req) "retries" = Some retries
  /\ body_field (json req) "retryTimeout" = Some rt
  /\ exists d : gmap string pyval,
       json req = PDict d
       /\ dom d = (if truthy details
                   then {["workerId"; "errorMessage"; "retries"; "retryTimeout";
                          "errorDetails"]}
                   else {["workerId"; "errorMessage"; "retries"; "retryTimeout"]}
                   : gset string).
Proof.
  intros Hreq. apply request_timeout_of in Hreq as (_ & -> & _).
  unfold failure_body. destruct (truthy details); cbn.
  - repeat (split; [by simplify_map_eq|]).
    eexists. split; [reflexivity|].
    rewrite !dom_insert_L, dom_empty_L. set_solver.
  - repeat (split; [by simplify_map_eq|]).
    eexists. split; [reflexivity|].
    rewrite !dom_insert_L, dom_empty_L. set_solver.
Qed.

End FailureBody.

Lemma failure_forwards_arguments_witness :
  exists req,
    @failure_request (demo (answering 204 None)) (demo_client ∅)
       (PStr "t1") (PStr "") (PInt 0) (PInt 0) (PInt 0) = OK req
    /\ body_field (json req) "retries" = Some (PInt 0).
Proof.
  eexists. split; [vm_compute; reflexivity|].
  eapply (@failure_forwards_arguments (demo (answering 204 None)) (demo_client ∅)
            (PStr "t1") (PStr "") (PInt 0) (PInt 0) (PInt 0)).
  vm_compute. reflexivity.
Defined.

(** ** More on the headers *)

Section MoreHeaders.
Context `{Collaborators}.

Lemma auth_basic_shape self b :
  auth_basic self = OK b -> b = ∅ \/ exists token, b = {["Authorization" := token]}.
Proof.
  unfold auth_basic.
  destruct (negb _ || negb _); [intros [= <-]; left; reflexivity|].
  destruct (dict_get (config self) "auth_basic");
    try (intros [= <-]; left; reflexivity).
  intros Hb. apply bind_OK_inv in Hb as (token & _ & [= <-]).
  right. exists token. reflexivity.
Qed.

Lemma auth_bearer_shape self b :
  auth_bearer self = OK b -> b = ∅ \/ exists token, b = {["Authorization" := token]}.
Proof.
  unfold auth_bearer.
  destruct (negb _ || negb _); [intros [= <-]; left; reflexivity|].
  destruct (dict_get (config self) "auth_bearer");
    try (intros [= <-]; left; reflexivity).
  intros Hb. apply bind_OK_inv in Hb as (token & _ & [= <-]).
  right. exists token. reflexivity.
Qed.

(** When the headers assemble, both properties returned. *)
Lemma get_headers_inv self h :
  _get_headers self = OK h ->
  exists basic bearer,
    auth_basic self = OK basic /\ auth_bearer self = OK bearer
    /\ h = dict_update (dict_update {["Content-Type" := "application/json"]} basic) bearer.
Proof.
  intros Hh.
  destruct (auth_basic self) as [basic|e] eqn:Hb.
  - destruct (auth_bearer self) as [bearer|e] eqn:Hr.
    + exists basic, bearer. rewrite (get_headers_of self basic bearer Hb Hr) in Hh.
      injection Hh as <-. repeat split.
    + unfold _get_headers in Hh. rewrite Hb, Hr in Hh. cbn in Hh.
      destruct (dict_truthy basic); discriminate Hh.
  - unfold _get_headers in Hh. rewrite Hb in Hh. discriminate Hh.
Qed.

(** X11.  Whatever is configured, assembled headers always say
    [Content-Type: application/json] and hold no key other than
    [Content-Type] and [Authorization]: a credential strategy can neither
    replace the content type nor add a header of its own. *)
Theorem headers_content_type_fixed self h :
  _get_headers self = OK h ->
  h !! "Content-Type" = Some "application/json"
  /\ dom h ⊆ ({["Content-Type"; "Authorization"]} : gset string).
Proof.
  intros Hh. apply get_headers_inv in Hh as (basic & bearer & Hb & Hr & ->).
  apply auth_basic_shape in Hb. apply auth_bearer_shape in Hr.
  unfold dict_update. split.
  - assert (Hnb : basic !! "Content-Type" = None).
    { destruct Hb as [Eb | [tb Eb]]; rewrite Eb;
        [apply lookup_empty | apply lookup_singleton_ne; discriminate]. }
    assert (Hnr : bearer !! "Content-Type" = None).
    { destruct Hr as [Er | [tr Er]]; rewrite Er;
        [apply lookup_empty | apply lookup_singleton_ne; discriminate]. }
    rewrite lookup_union_r by exact Hnr. rewrite lookup_union_r by exact Hnb.
    apply lookup_singleton_eq.
  - assert (Hdb : dom basic ⊆ ({["Authorization"]} : gset string)).
    { destruct Hb as [Eb | [tb Eb]]; rewrite Eb;
        rewrite ?dom_empty_L, ?dom_singleton_L; set_solver. }
    assert (Hdr : dom bearer ⊆ ({["Authorization"]} : gset string)).
    { destruct Hr as [Er | [tr Er]]; rewrite Er;
        rewrite ?dom_empty_L, ?dom_singleton_L; set_solver. }
    rewrite !dom_union_L, dom_singleton_L.
    intros k Hk. apply elem_of_union in Hk as [Hk | Hk].
    + apply Hdr in Hk. apply elem_of_union_r. exact Hk.
    + apply elem_of_union in Hk as [Hk | Hk].
      * apply Hdb in Hk. apply elem_of_union_r. exact Hk.
      * apply elem_of_union_l. exact Hk.
Qed.

(** X12.  With exactly one strategy configured, its token is the [Authorization]
    value: basic alone (the bearer entry absent, falsy such as [{}], or not a
    dict) gives the basic token, bearer alone the bearer token. *)
Theorem single_strategy_is_used self :
  (forall db tb,
     config self !! "auth_basic" = Some (PDict db) -> db <> ∅ ->
     AuthBasic_token db = OK tb ->
     truthy (dict_get (config self) "auth_bearer") = false
     \/ isinstance_dict (dict_get (config self) "auth_bearer") = false ->
     exists h, _get_headers self = OK h /\ h !! "Authorization" = Some tb)
  /\ (forall dr tr,
     config self !! "auth_bearer" = Some (PDict dr) -> dr <> ∅ ->
     AuthBearer_access_token dr = OK tr ->
     truthy (dict_get (config self) "auth_basic") = false
     \/ isinstance_dict (dict_get (config self) "auth_basic") = false ->
     exists h, _get_headers self = OK h /\ h !! "Authorization" = Some tr).
Proof.
  split.
  - intros db tb Hc Hd Ht Hoff.
    assert (Hr : auth_bearer self = OK ∅).
    { unfold auth_bearer. destruct Hoff as [-> | ->]; cbn;
        rewrite ?orb_true_r; reflexivity. }
    eexists. split.
    + apply get_headers_of; [eapply auth_basic_configured; eassumption | exact Hr].
    + unfold dict_update. rewrite (left_id_L ∅ (∪)).
      apply lookup_union_Some_l. apply lookup_singleton_eq.
  - intros dr tr Hc Hd Ht Hoff.
    assert (Hb : auth_basic self = OK ∅).
    { unfold auth_basic. destruct Hoff as [-> | ->]; cbn;
        rewrite ?orb_true_r; reflexivity. }
    eexists. split.
    + apply get_headers_of; [exact Hb | eapply auth_bearer_configured; eassumption].
    + unfold dict_update. apply lookup_union_Some_l. apply lookup_singleton_eq.
Qed.

(** X13.  A credential strategy that raises stops the request before it is sent.
    When the [auth_basic] entry is a non-empty dict and its strategy raises
    [e], header assembly raises [e] whatever the bearer entry is; and whenever
    header assembly raises [e], each of complete, failure and bpmn_failure
    raises [e], and so does fetch_and_lock once its body and timeout are
    computed, whatever the transport would answer. *)
Theorem credential_error_stops_request self e :
  (forall db, config self !! "auth_basic" = Some (PDict db) -> db <> ∅ ->
     AuthBasic_token db = Raise e -> _get_headers self = Raise e)
  /\ (_get_headers self = Raise e ->
      (forall tid gv lv, complete self tid gv lv = Raise e)
      /\ (forall tid msg details retries rt,
            failure self tid msg details retries rt = Raise e)
      /\ (forall tid code msg vars, bpmn_failure self tid code msg vars = Raise e)
      /\ (forall tn pv vars body q,
            fetch_and_lock_body self tn pv vars = OK body ->
            __get_fetch_and_lock_http_timeout_seconds self = OK q ->
            fetch_and_lock self tn pv vars = Raise e)).
Proof.
  split.
  - intros db Hc Hd Ht. unfold _get_headers, auth_basic, dict_get.
    rewrite Hc. cbn. rewrite (dict_truthy_ne _ Hd). cbn. rewrite Ht. reflexivity.
  - intros Hh. split; [|split; [|split]].
    + intros. unfold complete, complete_request. rewrite Hh. reflexivity.
    + intros. unfold failure, failure_request. rewrite Hh. reflexivity.
    + intros. unfold bpmn_failure, bpmn_failure_request. rewrite Hh. reflexivity.
    + intros tn pv vars body q Hbody Hq.
      unfold fetch_and_lock, fetch_and_lock_request.
      rewrite Hbody. cbn. rewrite Hq. cbn. rewrite Hh. reflexivity.
Qed.

End MoreHeaders.

Lemma headers_content_type_fixed_witness :
  exists h,
    @_get_headers (demo (answering 204 None)) (demo_client both_auth_config) = OK h
    /\ h !! "Content-Type" = Some "application/json".
Proof.
  eexists. split; [vm_compute; reflexivity|].
  eapply (@headers_content_type_fixed (demo (answering 204 None))
            (demo_client both_auth_config)).
  vm_compute. reflexivity.
Defined.

Lemma single_strategy_is_used_witness :
  exists h,
    @_get_headers (demo (answering 204 None))
       (demo_client (<["auth_basic" := PDict (<["username" := PStr "demo"]>
                                             (<["password" := PStr "secret"]> ∅))]>
                     (<["auth_bearer" := PDict ∅]> ∅))) = OK h
    /\ h !! "Authorization" = Some "Basic demo:secret".
Proof.
  edestruct (@single_strategy_is_used (demo (answering 204 None))
               (demo_client (<["auth_basic" := PDict (<["username" := PStr "demo"]>
                                                     (<["password" := PStr "secret"]> ∅))]>
                             (<["auth_bearer" := PDict ∅]> ∅)))) as [Hbasic _].
  apply (Hbasic (<["username" := PStr "demo"]> (<["password" := PStr "secret"]> ∅))
                "Basic demo:secret").
  - reflexivity.
  - intros E. vm_compute in E. discriminate E.
  - reflexivity.
  - left. reflexivity.
Defined.

Lemma credential_error_stops_request_witness :
  @complete (demo (answering 204 None))
     (demo_client (<["auth_basic" := PDict (<["username" := PStr "demo"]> ∅)]>
                   (<["auth_bearer" := PDict (<["access_token" := PStr "tok"]> ∅)]> ∅)))
     (PStr "t1") PNone PNone
  = Raise (CredentialError "auth_basic").
Proof.
  edestruct (@credential_error_stops_request (demo (answering 204 None))
               (demo_client (<["auth_basic" := PDict (<["username" := PStr "demo"]> ∅)]>
                  (<["auth_bearer" := PDict (<["access_token" := PStr "tok"]> ∅)]> ∅)))
               (CredentialError "auth_basic")) as [Hraise Hops].
  apply Hops.
  apply (Hraise (<["username" := PStr "demo"]> ∅)).
  - reflexivity.
  - intros E. vm_compute in E. discriminate E.
  - reflexivity.
Defined.

Lemma endpoint_urls_distinct_witness :
  @get_task_complete_url (demo (answering 204 None)) (demo_client ∅) (PStr "t1")
  <> @get_task_failure_url (demo (answering 204 None)) (demo_client ∅) (PStr "t1").
Proof.
  apply (@endpoint_urls_distinct (demo (answering 204 None)) (demo_client ∅) (PStr "t1")).
Defined.
